(** * Rockbot chat client: the UI state transitions of ChatInterface

    A shallow embedding of the client-side state management of the
    Rockbot web client:

    - [Storage]: the browser side the components talk to (localStorage,
      the [dark] class of the document root) and the helpers that keep the
      per-conversation list of locally deleted message ids;
    - [ChatInterface]: frontend/rockbot-ui/src/components/ChatInterface.jsx
      (the self-contained variant with the localStorage delete fallback
      and the manual-scroll detection);
    - [ChatInterfaceApi]: the variant of the same component kept in
      src/unnamed/part_002 (imports the ui/* components, talks to the
      server with [agent_type] / [ai_response] / [user_message_id]);
    - [ThemeToggle]: components/ui/theme-toggle.jsx.

    React state is a record; a [setX(prev => ...)] update is a function on
    that record.  An [async] handler is cut at its [await fetch(...)]: the
    part before it is a [_begin] function that returns the new state and
    the values the closure captured, the part after it is a [_resolve]
    function of the captured values, the outcome of the request and the
    state at that moment.  [Math.random] and [new Date()] are inputs.

    Strings are Rocq byte strings (they agree with JavaScript strings on
    ASCII text).  localStorage is a working store: [getItem] and [setItem]
    do not throw, and the item under [LS_DELETED_KEY] is only ever written
    by [writeDeletedMap], so it is held as the map it encodes (its type in
    the source is [Record<string, string[]>]). *)

From stdpp Require Import gmap strings list pretty.
From Stdlib Require Import QArith Lqa.

#[local] Open Scope string_scope.

(** ** JavaScript helpers *)

Module Js.

(** [a || b] on strings that may be undefined: the empty string and
    undefined are falsy. *)
Definition truthy (o : option string) : bool :=
  match o with
  | Some s => negb (String.eqb s "")
  | None => false
  end.

Definition or_else (o : option string) (d : string) : string :=
  match o with
  | Some s => if String.eqb s "" then d else s
  | None => d
  end.

Definition or_opt (o d : option string) : option string :=
  if truthy o then o else d.

(** [`${x}`] of a value that may be undefined. *)
Definition to_key (o : option string) : string := default "undefined" o.

(** White space removed by [String.prototype.trim] (ASCII part). *)
Definition is_white_space (a : Ascii.ascii) : bool :=
  let n := Ascii.nat_of_ascii a in
  (Nat.leb 9 n && Nat.leb n 13) || Nat.eqb n 32.

Fixpoint trimStart (s : string) : string :=
  match s with
  | EmptyString => EmptyString
  | String a s' => if is_white_space a then trimStart s' else s
  end.

Fixpoint trimEnd (s : string) : string :=
  match s with
  | EmptyString => EmptyString
  | String a s' =>
      let r := trimEnd s' in
      if is_white_space a && String.eqb r "" then EmptyString
      else String a r
  end.

Definition trim (s : string) : string := trimEnd (trimStart s).

(** [arr.includes(x)] *)
Definition includes (arr : list string) (x : string) : bool :=
  bool_decide (x ∈ arr).


(** The outcome of [await fetch(...)] followed by reading the body:
    the promise rejected (network error, or a body that is not JSON),
    the response had a status outside 200..299 ([!res.ok]), or the
    response was ok and its JSON is [data]. *)
Inductive Fetched (A : Type) : Type :=
| Rejected (message : string)
| HttpError (status : Z) (statusText : string) (text : string)
| HttpOk (data : A).
Arguments Rejected {A} message.
Arguments HttpError {A} status statusText text.
Arguments HttpOk {A} data.

(** A request failed: anything but an ok response. *)
Definition failed {A} (r : Fetched A) : bool :=
  match r with HttpOk _ => false | _ => true end.

(** A field of an object literal handed to [JSON.stringify]. *)
Inductive Value : Type :=
| VUndefined
| VNull
| VString (s : string)
| VData (json : string).

#[global] Instance Value_eq_dec : EqDecision Value.
Proof. solve_decision. Defined.

Definition of_opt (o : option string) : Value :=
  match o with Some s => VString s | None => VUndefined end.

Definition keys (obj : list (string * Value)) : list string := obj.*1.

(** [JSON.stringify] leaves out the fields whose value is undefined. *)
Definition JSON_stringify (obj : list (string * Value))
  : list (string * Value) :=
  filter (λ kv, kv.2 ≠ VUndefined) obj.

End Js.

(** ** The browser: localStorage and the document root *)

Module Storage.

Definition LS_THEME_KEY : string := "rockbot_theme_v1".
Definition LS_DELETED_KEY : string := "rockbot_deleted_msgs_v1".

(** [items] are the plain string entries (the theme keys); [deleted] is
    the entry under [LS_DELETED_KEY], absent until first written. *)
Record LocalStorage : Type := mkLocalStorage {
  items : gmap string string;
  deleted : option (gmap string (list string));
}.

Definition empty_storage : LocalStorage :=
  {| items := ∅; deleted := None |}.

Definition getItem (k : string) (ls : LocalStorage) : option string :=
  items ls !! k.

Definition setItem (k v : string) (ls : LocalStorage) : LocalStorage :=
  {| items := <[k := v]> (items ls); deleted := deleted ls |}.

(** [raw ? safeParseJSON(raw, {}) : {}] *)
Definition readDeletedMap (ls : LocalStorage) : gmap string (list string) :=
  default ∅ (deleted ls).

Definition writeDeletedMap (map : gmap string (list string))
    (ls : LocalStorage) : LocalStorage :=
  {| items := items ls; deleted := Some map |}.

Definition markMessageDeletedLocally (conversationId msgId : string)
    (ls : LocalStorage) : LocalStorage :=
  let map := readDeletedMap ls in
  let map1 :=
    match map !! conversationId with
    | Some _ => map
    | None => <[conversationId := []]> map
    end in
  let arr := default [] (map1 !! conversationId) in
  let map2 :=
    if Js.includes arr msgId then map1
    else <[conversationId := (arr ++ [msgId])%list]> map1 in
  writeDeletedMap map2 ls.

Definition isMessageLocallyDeleted (conversationId msgId : string)
    (ls : LocalStorage) : bool :=
  match readDeletedMap ls !! conversationId with
  | Some arr => Js.includes arr msgId
  | None => false
  end.

Definition removeLocalDeletedMark (conversationId msgId : string)
    (ls : LocalStorage) : LocalStorage :=
  let map := readDeletedMap ls in
  match map !! conversationId with
  | None => ls
  | Some arr =>
      writeDeletedMap
        (<[conversationId := filter (λ id, id ≠ msgId) arr]> map) ls
  end.

(** The list stored for a conversation (empty when there is none). *)
Definition stored_ids (conversationId : string) (ls : LocalStorage)
  : list string :=
  default [] (readDeletedMap ls !! conversationId).



(** The document and what survives a page reload. *)
Record Browser : Type := mkBrowser {
  localStorage : LocalStorage;
  html_dark : bool;          (* documentElement.classList has "dark" *)
  prefers_dark : bool;       (* matchMedia("(prefers-color-scheme: dark)") *)
}.


Definition with_storage (ls : LocalStorage) (b : Browser) : Browser :=
  {| localStorage := ls;
     html_dark := html_dark b;
     prefers_dark := prefers_dark b |}.

End Storage.

(** ** components/ChatInterface.jsx *)

Module ChatInterface.
Import Storage.

(** What [FileUploaderInline] hands to [onUploadComplete]; [data] is the
    JSON the upload endpoint returned ([None] for [null]). *)
Record UploadedFile : Type := mkUploadedFile {
  localUrl : string;
  name : string;
  data : option string;
  error : option string;
}.

Record Message : Type := mkMessage {
  msg_id : string;
  msg_role : string;
  msg_content : string;
  msg_timestamp : string;
  msg_file : option UploadedFile;
}.

(** A conversation object; a field the object lacks is [None]. *)
Record Conversation : Type := mkConversation {
  conv_id : option string;
  conv_title : option string;
  created_at : option string;
  updated_at : option string;
}.

Record State : Type := mkState {
  conversations : list Conversation;
  currentConversation : option Conversation;
  messages : list Message;
  input : string;
  isSending : bool;
  isTyping : bool;
  selectedAgent : string;
  theme : string;
  editingId : option string;
  editingText : string;
  uploadedFile : option UploadedFile;
  manualScroll : bool;
  browser : Browser;
}.

Definition set_conversations (f : list Conversation → list Conversation)
    (s : State) : State :=
  mkState (f (conversations s)) (currentConversation s) (messages s)
    (input s) (isSending s) (isTyping s) (selectedAgent s) (theme s)
    (editingId s) (editingText s) (uploadedFile s) (manualScroll s)
    (browser s).

Definition set_currentConversation
    (f : option Conversation → option Conversation) (s : State) : State :=
  mkState (conversations s) (f (currentConversation s)) (messages s)
    (input s) (isSending s) (isTyping s) (selectedAgent s) (theme s)
    (editingId s) (editingText s) (uploadedFile s) (manualScroll s)
    (browser s).

Definition set_messages (f : list Message → list Message) (s : State)
  : State :=
  mkState (conversations s) (currentConversation s) (f (messages s))
    (input s) (isSending s) (isTyping s) (selectedAgent s) (theme s)
    (editingId s) (editingText s) (uploadedFile s) (manualScroll s)
    (browser s).

Definition set_input (v : string) (s : State) : State :=
  mkState (conversations s) (currentConversation s) (messages s)
    v (isSending s) (isTyping s) (selectedAgent s) (theme s)
    (editingId s) (editingText s) (uploadedFile s) (manualScroll s)
    (browser s).

Definition set_isSending (v : bool) (s : State) : State :=
  mkState (conversations s) (currentConversation s) (messages s)
    (input s) v (isTyping s) (selectedAgent s) (theme s)
    (editingId s) (editingText s) (uploadedFile s) (manualScroll s)
    (browser s).

Definition set_isTyping (v : bool) (s : State) : State :=
  mkState (conversations s) (currentConversation s) (messages s)
    (input s) (isSending s) v (selectedAgent s) (theme s)
    (editingId s) (editingText s) (uploadedFile s) (manualScroll s)
    (browser s).

Definition set_theme (f : string → string) (s : State) : State :=
  mkState (conversations s) (currentConversation s) (messages s)
    (input s) (isSending s) (isTyping s) (selectedAgent s) (f (theme s))
    (editingId s) (editingText s) (uploadedFile s) (manualScroll s)
    (browser s).

Definition set_editing (i : option string) (t : string) (s : State)
  : State :=
  mkState (conversations s) (currentConversation s) (messages s)
    (input s) (isSending s) (isTyping s) (selectedAgent s) (theme s)
    i t (uploadedFile s) (manualScroll s) (browser s).

Definition set_uploadedFile (v : option UploadedFile) (s : State) : State :=
  mkState (conversations s) (currentConversation s) (messages s)
    (input s) (isSending s) (isTyping s) (selectedAgent s) (theme s)
    (editingId s) (editingText s) v (manualScroll s) (browser s).

Definition set_manualScroll (v : bool) (s : State) : State :=
  mkState (conversations s) (currentConversation s) (messages s)
    (input s) (isSending s) (isTyping s) (selectedAgent s) (theme s)
    (editingId s) (editingText s) (uploadedFile s) v (browser s).

Definition set_browser (f : Browser → Browser) (s : State) : State :=
  mkState (conversations s) (currentConversation s) (messages s)
    (input s) (isSending s) (isTyping s) (selectedAgent s) (theme s)
    (editingId s) (editingText s) (uploadedFile s) (manualScroll s)
    (f (browser s)).

Definition set_storage (f : LocalStorage → LocalStorage) : State → State :=
  set_browser (λ b, with_storage (f (localStorage b)) b).

Definition storage (s : State) : LocalStorage := localStorage (browser s).

(** The [useState] initial values, in the browser the page runs in. *)
Definition initial (b : Browser) : State :=
  {| conversations := [];
     currentConversation := None;
     messages := [];
     input := "";
     isSending := false;
     isTyping := false;
     selectedAgent := "general";
     theme := "light";
     editingId := None;
     editingText := "";
     uploadedFile := None;
     manualScroll := false;
     browser := b |}.

Definition uid (prefix random : string) : string := prefix +:+ random.

(** [currentConversation?.id] *)
Definition current_id (c : option Conversation) : option string :=
  c ≫= conv_id.

(** The key under which the deleted ids of a conversation are stored:
    [map[currentConversation.id]]. *)
Definition conv_key (c : Conversation) : string := Js.to_key (conv_id c).

(** *** Theme *)

(** [useEffect(() => { classList.toggle("dark", theme === "dark");
    localStorage.setItem(LS_THEME_KEY, theme); }, [theme])] *)
Definition theme_effect (s : State) : State :=
  set_browser
    (λ b, {| localStorage := setItem LS_THEME_KEY (theme s) (localStorage b);
             html_dark := bool_decide (theme s = "dark");
             prefers_dark := prefers_dark b |}) s.

(** [localStorage.getItem(LS_THEME_KEY) || "light"] *)
Definition storedTheme (b : Browser) : string :=
  Js.or_else (getItem LS_THEME_KEY (localStorage b)) "light".

(** The first render and its effects, in source order: the mount effect
    reads the stored theme and queues [setTheme(storedTheme)]; the
    [theme] effect runs with the initial ["light"]; the queued update is
    applied, and the [theme] effect runs again when the theme changed.
    (With no current conversation the messages effect does
    [setMessages([])].) *)
Definition mount (b : Browser) : State :=
  let s0 := initial b in
  let stored := storedTheme (browser s0) in
  let s1 := theme_effect s0 in
  let s2 := set_theme (λ _, stored) s1 in
  let s3 := if bool_decide (theme s2 = theme s1) then s2
            else theme_effect s2 in
  set_messages (λ _, []) s3.

(** [setTheme((prev) => (prev === "light" ? "dark" : "light"))] *)
Definition toggleTheme (s : State) : State :=
  set_theme (λ prev, if bool_decide (prev = "light") then "dark"
                     else "light") s.

(** A click on the theme button: the handler, then the render it causes
    with its [theme] effect. *)
Definition click_toggleTheme (s : State) : State :=
  let s1 := toggleTheme s in
  if bool_decide (theme s1 = theme s) then s1 else theme_effect s1.

(** *** Loading the messages of the current conversation *)

Definition mock_greeting (random now : string) : Message :=
  {| msg_id := uid "msg-" random;
     msg_role := "assistant";
     msg_content := "Hello! How can I help you today?";
     msg_timestamp := now;
     msg_file := None |}.

(** The effect on [currentConversation], up to the request: with no
    conversation the list is emptied and nothing is fetched; otherwise
    [loadMessages] starts for the conversation it captured. *)
Definition messages_effect (s : State) : State * option Conversation :=
  match currentConversation s with
  | None => (set_messages (λ _, []) s, None)
  | Some c => (s, Some c)
  end.

(** [loadMessages] after its request; [data] is [json.messages]. *)
Definition loadMessages_resolve (c : Conversation) (random now : string)
    (r : Js.Fetched (option (list Message))) (s : State) : State :=
  match r with
  | Js.HttpOk data =>
      let loadedMessages := default [] data in
      let loadedMessages :=
        filter (λ msg, isMessageLocallyDeleted (conv_key c) (msg_id msg)
                         (storage s) = false) loadedMessages in
      set_messages (λ _, loadedMessages) s
  | _ => set_messages (λ _, [mock_greeting random now]) s
  end.

(** *** Scrolling *)







(** *** sendMessage *)

(** The JSON of an ok answer of [POST /chat], as this component reads
    it. *)
Record ResponseData : Type := mkResponseData {
  user_msg_id : option string;
  assistant_msg_id : option string;
  response : option string;
  conversation_title : option string;
}.

(** The answer as it arrives: a JSON object, here its string-valued
    fields by name.  [responseData.user_msg_id] and the like read it. *)
Definition responseData_of (json : gmap string string) : ResponseData :=
  {| user_msg_id := json !! "user_msg_id";
     assistant_msg_id := json !! "assistant_msg_id";
     response := json !! "response";
     conversation_title := json !! "conversation_title" |}.

Record SendClosure : Type := mkSendClosure {
  tempMsgId : string;
  convId : option string;
  closure_currentConversation : option Conversation;
  payload : list (string * Js.Value);
}.

Definition file_data (f : option UploadedFile) : Js.Value :=
  match f with
  | None => Js.VUndefined
  | Some u => match data u with
              | Some d => Js.VData d
              | None => Js.VNull
              end
  end.

(** The guard of [sendMessage]. *)
Definition send_rejected (s : State) : bool :=
  isSending s
  || (String.eqb (Js.trim (input s)) "" && negb (bool_decide (is_Some (uploadedFile s)))).

Definition sendMessage_begin (random_msg random_conv now : string)
    (s : State) : State * option SendClosure :=
  if send_rejected s then (s, None) else
  let userMessage := Js.trim (input s) in
  let file := uploadedFile s in
  let s := set_isSending true s in
  let s := set_input "" s in
  let s := set_uploadedFile None s in
  let tempMsgId := uid "msg-temp-" random_msg in
  let newMessage :=
    {| msg_id := tempMsgId;
       msg_role := "user";
       msg_content := userMessage;
       msg_timestamp := now;
       msg_file := file |} in
  let s1 := set_messages (λ prev, (prev ++ [newMessage])%list) s in
  let current := currentConversation s in
  let convId := current_id current in
  let '(s2, convId) :=
    if negb (Js.truthy convId) then
      let newConv :=
        {| conv_id := Some (uid "conv-" random_conv);
           conv_title :=
             Some (String.substring 0 30 userMessage
                   +:+ (if Nat.ltb 30 (String.length userMessage)
                        then "..." else ""));
           created_at := Some now;
           updated_at := Some now |} in
      (set_currentConversation (λ _, Some newConv)
         (set_conversations (λ prev, newConv :: prev) s1),
       conv_id newConv)
    else (s1, convId) in
  let s3 := set_isTyping true s2 in
  let payload :=
    [ ("conversation_id", Js.of_opt convId);
      ("agent_id", Js.VString (selectedAgent s));
      ("message", Js.VString userMessage);
      ("file_data", file_data file);
      ("file_name", Js.of_opt (name <$> file)) ] in
  (s3, Some {| tempMsgId := tempMsgId;
               convId := convId;
               closure_currentConversation := current;
               payload := payload |}).

(** Step 5: [prev.map((msg) => msg.id === tempMsgId ?
    { ...msg, id: responseData.user_msg_id || tempMsgId } : msg)] *)
Definition reconcile (tempMsgId : string) (d : ResponseData)
    (msg : Message) : Message :=
  if bool_decide (msg_id msg = tempMsgId) then
    {| msg_id := Js.or_else (user_msg_id d) tempMsgId;
       msg_role := msg_role msg;
       msg_content := msg_content msg;
       msg_timestamp := msg_timestamp msg;
       msg_file := msg_file msg |}
  else msg.

Definition assistantMessage (d : ResponseData) (random now : string)
  : Message :=
  {| msg_id := Js.or_else (assistant_msg_id d) (uid "msg-" random);
     msg_role := "assistant";
     msg_content :=
       Js.or_else (response d) "Sorry, I couldn't process that request.";
     msg_timestamp := now;
     msg_file := None |}.

(** [e.message] in the [catch] of [sendMessage]. *)
Definition error_message {A} (r : Js.Fetched A) : string :=
  match r with
  | Js.Rejected message => message
  | Js.HttpError status statusText _ =>
      "API Error: " +:+ pretty status +:+ " " +:+ statusText
  | Js.HttpOk _ => ""
  end.

Definition errorMsg (message random now : string) : Message :=
  {| msg_id := uid "msg-error-" random;
     msg_role := "assistant";
     msg_content := "**Error:** " +:+ message +:+ ". Please try again.";
     msg_timestamp := now;
     msg_file := None |}.

(** [{ ...prev, title: newTitle, updated_at: now }] *)
Definition retitle (newTitle : option string) (now : string)
    (prev : option Conversation) : Conversation :=
  {| conv_id := prev ≫= conv_id;
     conv_title := newTitle;
     created_at := prev ≫= created_at;
     updated_at := Some now |}.

Definition sendMessage_resolve (cl : SendClosure) (random now : string)
    (r : Js.Fetched ResponseData) (s : State) : State :=
  let s :=
    match r with
    | Js.HttpOk responseData =>
        let s := set_messages (map (reconcile (tempMsgId cl) responseData)) s in
        let s := set_messages
                   (λ prev,
                      (prev ++ [assistantMessage responseData random now])%list)
                   s in
        if bool_decide
             (convId cl = current_id (closure_currentConversation cl))
        then
          let newTitle :=
            Js.or_opt (conversation_title responseData)
              (closure_currentConversation cl ≫= conv_title) in
          let s := set_currentConversation
                     (λ prev, Some (retitle newTitle now prev)) s in
          set_conversations
            (map (λ c, if bool_decide (conv_id c = convId cl)
                       then retitle newTitle now (Some c) else c)) s
        else s
    | _ =>
        set_messages
          (λ prev, (prev ++ [errorMsg (error_message r) random now])%list) s
    end in
  set_isTyping false (set_isSending false s).

(** *** Conversations *)

Definition selectConversation (c : Conversation) (s : State) : State :=
  set_currentConversation (λ _, Some c) s.

Definition newConversation (random now : string) (s : State) : State :=
  let s := set_currentConversation (λ _, None) s in
  let s := set_messages (λ _, []) s in
  let s := set_input "" s in
  let s := set_uploadedFile None s in
  let s := set_editing None (editingText s) s in
  let newConv :=
    {| conv_id := Some (uid "conv-" random);
       conv_title := Some "New Conversation";
       created_at := Some now;
       updated_at := Some now |} in
  let s := set_conversations (λ prev, newConv :: prev) s in
  let s := set_currentConversation (λ _, Some newConv) s in
  set_manualScroll false s.

(** [deleteConversation] after its request (the user confirmed and the
    conversation has an id); the [try] and the [catch] do the same. *)
Definition deleteConversation_resolve (conversation : Conversation)
    (closure_current : option Conversation) (s : State) : State :=
  let s := set_conversations
             (filter (λ c, conv_id c ≠ conv_id conversation)) s in
  if bool_decide (current_id closure_current = conv_id conversation)
  then set_messages (λ _, []) (set_currentConversation (λ _, None) s)
  else s.

(** *** Messages: delete and edit *)

Definition deleteMessage_begin (msg : Message) (s : State)
  : State * option (Conversation * Message) :=
  match currentConversation s with
  | None => (s, None)
  | Some c =>
      let s := set_messages (filter (λ m, msg_id m ≠ msg_id msg)) s in
      let s := set_storage
                 (markMessageDeletedLocally (conv_key c) (msg_id msg)) s in
      (s, Some (c, msg))
  end.

Definition deleteMessage_resolve (c : Conversation) (msg : Message)
    (r : Js.Fetched unit) (s : State) : State :=
  match r with
  | Js.HttpOk _ =>
      set_storage (removeLocalDeletedMark (conv_key c) (msg_id msg)) s
  | _ => s
  end.

Definition saveEditedMessage_begin (id newContent now : string)
    (s : State) : State :=
  if String.eqb id ""
     || negb (bool_decide (is_Some (currentConversation s))) then s
  else
    let s :=
      set_messages
        (map (λ msg, if bool_decide (msg_id msg = id)
                     then {| msg_id := msg_id msg;
                             msg_role := msg_role msg;
                             msg_content := newContent;
                             msg_timestamp := now;
                             msg_file := msg_file msg |}
                     else msg)) s in
    set_editing None "" s.

End ChatInterface.

(** ** The variant of ChatInterface.jsx in src/unnamed/part_002 *)

Module ChatInterfaceApi.

(** [{ url: filePayload.localUrl, name: filePayload.name,
       meta: filePayload.data || null }] *)
Record FilePayload : Type := mkFilePayload {
  localUrl : string;
  name : string;
  data : option string;
}.

Record Message : Type := mkMessage {
  msg_id : string;
  msg_role : string;
  msg_content : string;
  msg_timestamp : string;
  msg_sending : option bool;
  msg_likes : Z;
  msg_dislikes : Z;
  msg_file : option FilePayload;
}.

Record Conversation : Type := mkConversation {
  conv_id : option string;
  conv_title : option string;
}.

Record State : Type := mkState {
  conversations : list Conversation;
  currentConversation : option Conversation;
  messages : list Message;
  selectedAgent : string;
  inputMessage : string;
  isLoading : bool;
  isTyping : bool;
  editingId : option string;
  editingText : string;
}.

Definition set_currentConversation (v : option Conversation) (s : State)
  : State :=
  mkState (conversations s) v (messages s) (selectedAgent s)
    (inputMessage s) (isLoading s) (isTyping s) (editingId s)
    (editingText s).

Definition set_messages (f : list Message → list Message) (s : State)
  : State :=
  mkState (conversations s) (currentConversation s) (f (messages s))
    (selectedAgent s) (inputMessage s) (isLoading s) (isTyping s)
    (editingId s) (editingText s).

Definition set_inputMessage (v : string) (s : State) : State :=
  mkState (conversations s) (currentConversation s) (messages s)
    (selectedAgent s) v (isLoading s) (isTyping s) (editingId s)
    (editingText s).

Definition set_busy (loading typing : bool) (s : State) : State :=
  mkState (conversations s) (currentConversation s) (messages s)
    (selectedAgent s) (inputMessage s) loading typing (editingId s)
    (editingText s).

Definition set_editing (i : option string) (t : string) (s : State)
  : State :=
  mkState (conversations s) (currentConversation s) (messages s)
    (selectedAgent s) (inputMessage s) (isLoading s) (isTyping s) i t.

Definition initial : State :=
  {| conversations := [];
     currentConversation := None;
     messages := [];
     selectedAgent := "";
     inputMessage := "";
     isLoading := false;
     isTyping := false;
     editingId := None;
     editingText := "" |}.

Definition uid (prefix random : string) : string := prefix +:+ random.

Definition current_id (c : option Conversation) : option string :=
  c ≫= conv_id.

(** *** Loading a conversation *)


(** The effect on [currentConversation?.id], up to the request. *)
Definition messages_effect (s : State) : State * option string :=
  if Js.truthy (current_id (currentConversation s))
  then (s, current_id (currentConversation s))
  else (set_messages (λ _, []) s, None).


(** *** sendMessage *)

(** One reply of the server: a string, or a message object
    ([ai_json] is what [JSON.stringify] gives for it). *)
Record AiObject : Type := mkAiObject {
  ai_id : option string;
  ai_content : option string;
  ai_text : option string;
  ai_json : string;
  ai_timestamp : option string;
  ai_likes : option Z;
  ai_dislikes : option Z;
}.

Inductive AiItem : Type :=
| AiString (text : string)
| AiObj (o : AiObject).

(** [json.ai_response]: absent (or null), one reply, or an array. *)
Inductive AiResponse : Type :=
| AiAbsent
| AiSingle (r : AiItem)
| AiArray (l : list AiItem).

(** The JSON of an ok answer of [POST /chat], as this component reads
    it. *)
Record ChatJson : Type := mkChatJson {
  user_message : option (option string);   (* user_message, and its id *)
  user_message_id : option string;
  ai_response : AiResponse;
  response : option string;
  conversation_id : option string;
}.

(** [if (json?.ai_response)]: an empty string is falsy, an array (even
    an empty one) and an object are truthy. *)
Definition ai_truthy (a : AiResponse) : bool :=
  match a with
  | AiAbsent => false
  | AiSingle (AiString text) => negb (String.eqb text "")
  | AiSingle (AiObj _) => true
  | AiArray _ => true
  end.

Record SendClosure : Type := mkSendClosure {
  tmpId : string;
  closure_currentConversation : option Conversation;
  body : list (string * Js.Value);
}.

Definition saveEditedMessage_begin (id newContent : string) (s : State)
  : State :=
  let s :=
    set_messages
      (map (λ m, if bool_decide (msg_id m = id)
                 then mkMessage (msg_id m) (msg_role m) newContent
                        (msg_timestamp m) (msg_sending m) (msg_likes m)
                        (msg_dislikes m) (msg_file m)
                 else m)) s in
  set_editing None "" s.

Definition sendMessage_begin (editId : option string)
    (filePayload : option FilePayload) (random now : string) (s : State)
  : State * option SendClosure :=
  let content :=
    if Js.truthy editId then Js.trim (editingText s)
    else Js.trim (inputMessage s) in
  if String.eqb content "" && negb (bool_decide (is_Some filePayload))
  then (s, None)
  else if Js.truthy editId
  then (saveEditedMessage_begin (default "" editId) content s, None)
  else
    let tmpId := uid "tmp-" random in
    let userMessage :=
      {| msg_id := tmpId;
         msg_role := "user";
         msg_content := content;
         msg_timestamp := now;
         msg_sending := Some true;
         msg_likes := 0;
         msg_dislikes := 0;
         msg_file := filePayload |} in
    let s1 := set_messages (λ prev, (prev ++ [userMessage])%list) s in
    let s1 := set_inputMessage "" s1 in
    let s1 := set_busy true true s1 in
    let body :=
      ([ ("message", Js.VString content);
         ("conversation_id",
           Js.of_opt (current_id (currentConversation s)));
         ("agent_type", Js.VString (selectedAgent s)) ]
       ++ match filePayload ≫= data with
          | Some d => [("file", Js.VData d)]
          | None => []
          end)%list in
    (s1, Some {| tmpId := tmpId;
                 closure_currentConversation := currentConversation s;
                 body := body |}).

(** [json?.user_message?.id || json?.user_message_id || m.id] *)
Definition server_id (json : ChatJson) (own : string) : string :=
  Js.or_else (mjoin (user_message json))
    (Js.or_else (user_message_id json) own).

Definition reconcile (tmpId : string) (json : ChatJson) (m : Message)
  : Message :=
  if bool_decide (msg_id m = tmpId) then
    {| msg_id := server_id json (msg_id m);
       msg_role := msg_role m;
       msg_content := msg_content m;
       msg_timestamp := msg_timestamp m;
       msg_sending := Some false;
       msg_likes := msg_likes m;
       msg_dislikes := msg_dislikes m;
       msg_file := msg_file m |}
  else m.

Definition assistant (id content timestamp : string) (likes dislikes : Z)
  : Message :=
  {| msg_id := id;
     msg_role := "assistant";
     msg_content := content;
     msg_timestamp := timestamp;
     msg_sending := None;
     msg_likes := likes;
     msg_dislikes := dislikes;
     msg_file := None |}.

(** The callback of [aiList.map]. *)
Definition of_reply (random now : string) (r : AiItem) : Message :=
  match r with
  | AiString text => assistant (uid "ai-" random) text now 0 0
  | AiObj o =>
      assistant (Js.or_else (ai_id o) (uid "ai-" random))
        (Js.or_else (ai_content o)
           (Js.or_else (ai_text o) (String.substring 0 300 (ai_json o))))
        (Js.or_else (ai_timestamp o) now)
        (default 0%Z (ai_likes o)) (default 0%Z (ai_dislikes o))
  end.

(** The assistant messages appended for an ok answer; [random i] is the
    value [Math.random] gives for the reply at index [i]. *)
Definition toAppend (random : nat → string) (now : string)
    (json : ChatJson) : list Message :=
  if ai_truthy (ai_response json) then
    let aiList :=
      match ai_response json with
      | AiArray l => l
      | AiSingle r => [r]
      | AiAbsent => []
      end in
    imap (λ i r, of_reply (random i) now r) aiList
  else
    [assistant (uid "ai-" (random 0%nat))
       (Js.or_else (response json) "No response.") now 0 0].

(** [err.message] in the [catch] of [sendMessage]. *)
Definition error_message {A} (r : Js.Fetched A) : string :=
  match r with
  | Js.Rejected message => message
  | Js.HttpError _ _ errText => "Chat failed: " +:+ errText
  | Js.HttpOk _ => ""
  end.

Definition error_reply (message random now : string) : Message :=
  assistant (uid "ai-err" random)
    ("Sorry — I couldn't send the message: " +:+ message) now 0 0.

(** [sendMessage] after its request.  ([loadConversations], awaited
    before the [finally], only sets the conversation list.)  The
    [finally] clears [isLoading] and starts the timer of [typing_timer]. *)
Definition sendMessage_resolve (cl : SendClosure) (random : nat → string)
    (now : string) (r : Js.Fetched ChatJson) (s : State) : State :=
  let s :=
    match r with
    | Js.HttpOk json =>
        let s := set_messages (map (reconcile (tmpId cl) json)) s in
        let s := set_messages
                   (λ prev, (prev ++ toAppend random now json)%list) s in
        if negb (bool_decide (is_Some (closure_currentConversation cl)))
           && Js.truthy (conversation_id json)
        then set_currentConversation
               (Some {| conv_id := conversation_id json;
                        conv_title := None |}) s
        else s
    | _ =>
        set_messages
          (λ prev,
             (prev ++ [error_reply (error_message r) (random 0%nat) now])%list)
          s
    end in
  set_busy false (isTyping s) s.


Definition deleteMessage_begin (msg : Message) (s : State) : State :=
  set_messages (filter (λ m, msg_id m ≠ msg_id msg)) s.

End ChatInterfaceApi.

(** ** components/ui/theme-toggle.jsx *)

Module ThemeToggle.
Import Storage.

(** The component state and the browser it lives in. *)
Record State : Type := mkState {
  theme : string;
  browser : Browser;
}.

(** The lazy initial state of [useState]. *)
Definition initial_theme (b : Browser) : string :=
  match getItem "theme" (localStorage b) with
  | Some saved =>
      if String.eqb saved "" then
        (if prefers_dark b then "dark" else "light")
      else saved
  | None => if prefers_dark b then "dark" else "light"
  end.

(** [useEffect(..., [theme])]: add or remove the [dark] class, then
    [localStorage.setItem("theme", theme)]. *)
Definition theme_effect (s : State) : State :=
  {| theme := theme s;
     browser :=
       {| localStorage := setItem "theme" (theme s) (localStorage (browser s));
          html_dark := bool_decide (theme s = "dark");
          prefers_dark := prefers_dark (browser s) |} |}.

(** First render and its effect. *)
Definition mount (b : Browser) : State :=
  theme_effect {| theme := initial_theme b; browser := b |}.

(** [onClick={() => setTheme((t) => (t === "dark" ? "light" : "dark"))}],
    then the render it causes with its effect. *)
Definition toggle (t : string) : string :=
  if bool_decide (t = "dark") then "light" else "dark".

Definition click (s : State) : State :=
  theme_effect {| theme := toggle (theme s); browser := browser s |}.

End ThemeToggle.

(** ** Runs of ChatInterface.jsx

  The events that change what is displayed, each at the state it finds.
  A resolve step may come at any later moment, so other steps can lie
  between a [_begin] and its [_resolve].  The premises are about values
  that come from outside: an id minted by [uid] or handed out by the
  server for a new message is not one the user marked as deleted, a
  newly minted conversation id has no entry in the deleted map, an
  answer to [loadMessages] or [sendMessage] arrives while its
  conversation is still the current one, and the messages left on
  screen while a selected conversation loads carry no id marked under
  it (message ids are not shared between conversations). *)

Module Runs.
Import Storage ChatInterface.

Definition unmarked (key : string) (ls : LocalStorage) (msg : Message)
  : Prop :=
  isMessageLocallyDeleted key (msg_id msg) ls = false.





End Runs.

(** ** Sample data: a small session *)

Module Sample.
Import Storage.

Definition fresh_browser : Browser :=
  {| localStorage := empty_storage; html_dark := false; prefers_dark := false |}.

Definition trip : ChatInterface.Conversation :=
  {| ChatInterface.conv_id := Some "1";
     ChatInterface.conv_title := Some "Trip";
     ChatInterface.created_at := Some "2024-05-01T10:00:00.000Z";
     ChatInterface.updated_at := Some "2024-05-01T10:00:00.000Z" |}.

Definition hello : ChatInterface.Message :=
  {| ChatInterface.msg_id := "7";
     ChatInterface.msg_role := "user";
     ChatInterface.msg_content := "hello";
     ChatInterface.msg_timestamp := "2024-05-01T10:00:01.000Z";
     ChatInterface.msg_file := None |}.

Definition greeting : ChatInterface.Message :=
  {| ChatInterface.msg_id := "8";
     ChatInterface.msg_role := "assistant";
     ChatInterface.msg_content := "Hi! How can I help?";
     ChatInterface.msg_timestamp := "2024-05-01T10:00:02.000Z";
     ChatInterface.msg_file := None |}.

(** The conversation [trip] open with its two messages on screen. *)
Definition open_trip : ChatInterface.State :=
  ChatInterface.set_messages (λ _, [hello; greeting])
    (ChatInterface.selectConversation trip
       (ChatInterface.mount fresh_browser)).

(** The user has typed a question and the server is asked. *)
Definition composing : ChatInterface.State :=
  ChatInterface.set_input "  How far is Rome?  " open_trip.

Definition asked : ChatInterface.State * option ChatInterface.SendClosure :=
  ChatInterface.sendMessage_begin "k3x9a2b" "q7w8e9r"
    "2024-05-01T10:01:00.000Z" composing.

Definition request : ChatInterface.SendClosure :=
  {| ChatInterface.tempMsgId := "msg-temp-k3x9a2b";
     ChatInterface.convId := Some "1";
     ChatInterface.closure_currentConversation := Some trip;
     ChatInterface.payload :=
       [ ("conversation_id", Js.VString "1");
         ("agent_id", Js.VString "general");
         ("message", Js.VString "How far is Rome?");
         ("file_data", Js.VUndefined);
         ("file_name", Js.VUndefined) ] |}.

(** An answer in the shape the README and the part_002 variant use. *)
Definition documented_answer : gmap string string :=
  {[ "ai_response" := "About 1,400 km.";
     "conversation_id" := "1";
     "user_message_id" := "42" ]}.

(** The same session in the part_002 variant. *)
Definition trip' : ChatInterfaceApi.Conversation :=
  {| ChatInterfaceApi.conv_id := Some "1";
     ChatInterfaceApi.conv_title := Some "Trip" |}.

Definition hello' : ChatInterfaceApi.Message :=
  {| ChatInterfaceApi.msg_id := "7";
     ChatInterfaceApi.msg_role := "user";
     ChatInterfaceApi.msg_content := "hello";
     ChatInterfaceApi.msg_timestamp := "2024-05-01T10:00:01.000Z";
     ChatInterfaceApi.msg_sending := None;
     ChatInterfaceApi.msg_likes := 0;
     ChatInterfaceApi.msg_dislikes := 0;
     ChatInterfaceApi.msg_file := None |}.

Definition composing' : ChatInterfaceApi.State :=
  {| ChatInterfaceApi.conversations := [trip'];
     ChatInterfaceApi.currentConversation := Some trip';
     ChatInterfaceApi.messages := [hello'];
     ChatInterfaceApi.selectedAgent := "general";
     ChatInterfaceApi.inputMessage := "  How far is Rome?  ";
     ChatInterfaceApi.isLoading := false;
     ChatInterfaceApi.isTyping := false;
     ChatInterfaceApi.editingId := None;
     ChatInterfaceApi.editingText := "" |}.

Definition asked' : ChatInterfaceApi.State * option ChatInterfaceApi.SendClosure :=
  ChatInterfaceApi.sendMessage_begin None None "k3x9a2b"
    "2024-05-01T10:01:00.000Z" composing'.

Definition request' : ChatInterfaceApi.SendClosure :=
  {| ChatInterfaceApi.tmpId := "tmp-k3x9a2b";
     ChatInterfaceApi.closure_currentConversation := Some trip';
     ChatInterfaceApi.body :=
       [ ("message", Js.VString "How far is Rome?");
         ("conversation_id", Js.VString "1");
         ("agent_type", Js.VString "general") ] |}.

Definition randoms (i : nat) : string := "r" +:+ pretty i.

(** An ok answer whose [ai_response] is [a], with the server id 42 for the
    user message. *)
Definition answer' (a : ChatInterfaceApi.AiResponse) : ChatInterfaceApi.ChatJson :=
  {| ChatInterfaceApi.user_message := None;
     ChatInterfaceApi.user_message_id := Some "42";
     ChatInterfaceApi.ai_response := a;
     ChatInterfaceApi.response := None;
     ChatInterfaceApi.conversation_id := Some "1" |}.






(** A first send on a fresh page: no conversation is open, so the
    optimistic step mints one; the messages effect then starts
    [loadMessages] for it, which the server answers with 404 before it
    answers the chat request. *)
Definition first_typed : ChatInterface.State :=
  ChatInterface.set_input "hi" (ChatInterface.mount fresh_browser).

Definition first_asked : ChatInterface.State * option ChatInterface.SendClosure :=
  ChatInterface.sendMessage_begin "k3x9a2b" "q7w8e9r"
    "2024-05-01T10:01:00.000Z" first_typed.

Definition first_load_failed : ChatInterface.State :=
  match (ChatInterface.messages_effect first_asked.1).2 with
  | Some c =>
      ChatInterface.loadMessages_resolve c "m1" "2024-05-01T10:01:01.000Z"
        (Js.HttpError 404 "Not Found" "") first_asked.1
  | None => first_asked.1
  end.

Definition first_answered : ChatInterface.State :=
  match first_asked.2 with
  | Some cl =>
      ChatInterface.sendMessage_resolve cl "a1" "2024-05-01T10:01:05.000Z"
        (Js.HttpOk (ChatInterface.responseData_of {[ "response" := "Hello!" ]}))
        first_load_failed
  | None => first_load_failed
  end.

End Sample.

(** ** ChatInterface.jsx: the remaining handlers *)

Module ChatInterfaceHandlers.
Import Storage ChatInterface.

(** *** Conversations *)

(** [deleteConversation] up to its request: nothing happens for a
    conversation without an id or when the user does not confirm;
    otherwise the request goes out and the closure holds the conversation
    and the current conversation of that render. *)
Definition deleteConversation_begin (conversation : Conversation)
    (confirmed : bool) (s : State)
  : option (Conversation * option Conversation) :=
  if negb (Js.truthy (conv_id conversation)) then None
  else if negb confirmed then None
  else Some (conversation, currentConversation s).

(** The whole of [deleteConversation] when nothing else happens while the
    request is under way. *)
Definition deleteConversation (conversation : Conversation)
    (confirmed : bool) (r : Js.Fetched unit) (s : State) : State :=
  match deleteConversation_begin conversation confirmed s with
  | None => s
  | Some (conversation, closure_current) =>
      match r with
      | Js.HttpOk _ =>
          deleteConversation_resolve conversation closure_current s
      | _ => deleteConversation_resolve conversation closure_current s
      end
  end.

(** The JSON of [GET /conversations]; [loadConversations] after its
    request.  [hour_ago] is [new Date(Date.now() - 3600000)]. *)
Definition mock_conversation (hour_ago : string) : Conversation :=
  {| conv_id := Some "conv-mock-1";
     conv_title := Some "Mock Conversation 1";
     created_at := Some hour_ago;
     updated_at := Some hour_ago |}.

Definition loadConversations_resolve (hour_ago : string)
    (r : Js.Fetched (option (list Conversation))) (s : State) : State :=
  match r with
  | Js.HttpOk json_conversations =>
      set_conversations (λ _, default [] json_conversations) s
  | _ => set_conversations (λ _, [mock_conversation hour_ago]) s
  end.

(** *** Agents *)

Record Agent : Type := mkAgent {
  agent_name : option string;
  agent_description : option string;
}.

(** An agents object: its entries in the order [Object.keys] lists
    them. *)
Definition FALLBACK_AGENTS : list (string * Agent) :=
  [ ("general", mkAgent (Some "General Assistant")
                  (Some "General purpose assistant."));
    ("translator", mkAgent (Some "Translator")
                     (Some "Translate text across languages."));
    ("creative", mkAgent (Some "Creative Writer")
                   (Some "Generates creative content."));
    ("coder", mkAgent (Some "Code Assistant")
                (Some "Helps with coding tasks.")) ].

(** [loadAgents] after its request: the values handed to [setAgents] and
    to [setSelectedAgent] ([None] for [undefined]); [json.agents] is
    [None] when the answer has no such field. *)
Definition loadAgents_resolve
    (r : Js.Fetched (option (list (string * Agent))))
  : list (string * Agent) * option string :=
  match r with
  | Js.HttpOk json_agents =>
      (default FALLBACK_AGENTS json_agents,
       head (default FALLBACK_AGENTS json_agents).*1)
  | _ => (FALLBACK_AGENTS, head FALLBACK_AGENTS.*1)
  end.

(** [AgentSelector]: [None] for the "No agents" text, otherwise the
    options of the select as (value, label). *)
Definition AgentSelector (agents : list (string * Agent))
  : option (list (string * string)) :=
  if bool_decide (length agents.*1 = 0%nat) then None
  else Some ((λ ka, (ka.1, Js.or_else (agent_name ka.2) ka.1)) <$> agents).

(** *** File upload *)

(** The file picked in the input: its name and the object URL made for
    it. *)
Record File : Type := mkFile {
  file_name : string;
  file_localUrl : string;
}.

(** [handleFile] after its request: the object handed to
    [onUploadComplete]. *)
Definition handleFile_resolve (file : File) (r : Js.Fetched string)
  : UploadedFile :=
  match r with
  | Js.HttpOk json =>
      {| localUrl := file_localUrl file; name := file_name file;
         data := Some json; error := None |}
  | Js.HttpError _ statusText _ =>
      {| localUrl := file_localUrl file; name := file_name file;
         data := None;
         error := Some ("Upload failed: " +:+ statusText) |}
  | Js.Rejected message =>
      {| localUrl := file_localUrl file; name := file_name file;
         data := None; error := Some message |}
  end.

(** [<FileUploaderInline onUploadComplete={setUploadedFile} />]: a change
    of the file input, with its request answered; without a file
    ([e.target.files?.[0]] undefined) the handler returns at once. *)
Definition handleFile (file : option File) (r : Js.Fetched string)
    (s : State) : State :=
  match file with
  | None => s
  | Some f => set_uploadedFile (Some (handleFile_resolve f r)) s
  end.

(** *** Editing *)

Definition startEdit (msg : Message) (s : State) : State :=
  set_editing (Some (msg_id msg)) (msg_content msg) s.

Definition cancelEdit (s : State) : State := set_editing None "" s.

(** The "Save Edit" button: disabled while [!editingText.trim()],
    otherwise [saveEditedMessage(editingId, editingText)]. *)
Definition click_saveEdit (now : string) (s : State) : State :=
  if String.eqb (Js.trim (editingText s)) "" then s
  else saveEditedMessage_begin (default "" (editingId s)) (editingText s)
         now s.

(** [onReply={() => setInput(`@${msg.id} `)}] *)
Definition reply (msg : Message) (s : State) : State :=
  set_input ("@" +:+ msg_id msg +:+ " ") s.

(** [onKeyDown] of the input. *)
Definition onKeyDown (key : string) (shiftKey : bool)
    (random_msg random_conv now : string) (s : State)
  : State * option SendClosure :=
  if String.eqb key "Enter" && negb shiftKey
     && negb (Js.truthy (editingId s))
  then sendMessage_begin random_msg random_conv now s
  else (s, None).

End ChatInterfaceHandlers.

(** ** part_002: the remaining handlers *)

Module ChatInterfaceApiHandlers.
Import ChatInterfaceApi.

Definition set_conversations (v : list Conversation) (s : State) : State :=
  mkState v (currentConversation s) (messages s) (selectedAgent s)
    (inputMessage s) (isLoading s) (isTyping s) (editingId s)
    (editingText s).

Definition set_selectedAgent (v : string) (s : State) : State :=
  mkState (conversations s) (currentConversation s) (messages s) v
    (inputMessage s) (isLoading s) (isTyping s) (editingId s)
    (editingText s).

(** *** Agents and conversations *)

(** [loadAgents] after its request.  The agents object is a state of its
    own (its keys in the order [Object.keys] lists them, [None] for a
    null answer); [closure_selectedAgent] is the [selectedAgent] of the
    render that started the request. *)
Definition loadAgents_resolve (closure_selectedAgent : string)
    (r : Js.Fetched (option (list string)))
    (agents : list string) (s : State) : list string * State :=
  match r with
  | Js.HttpOk data =>
      let keys := default [] data in
      (keys,
       if String.eqb closure_selectedAgent "" then
         match keys with
         | k :: _ => set_selectedAgent k s
         | [] => set_selectedAgent "general" s
         end
       else s)
  | _ => (agents, s)
  end.

(** [loadConversations] after its request; [data] is [None] when the
    answer is not an array. *)
Definition loadConversations_resolve
    (closure_currentConversation : option Conversation)
    (r : Js.Fetched (option (list Conversation))) (s : State) : State :=
  match r with
  | Js.HttpOk data =>
      let s := set_conversations (default [] data) s in
      match closure_currentConversation, data with
      | None, Some (first :: _) => set_currentConversation (Some first) s
      | _, _ => s
      end
  | _ => s
  end.

(** [createNewConversation] after its POST (the conversation list is
    loaded again afterwards). *)
Definition createNewConversation_resolve (r : Js.Fetched Conversation)
    (s : State) : State :=
  match r with
  | Js.HttpOk json =>
      set_messages (λ _, []) (set_currentConversation (Some json) s)
  | _ => s
  end.

Definition deleteConversation_begin (conversation : Conversation)
    (confirmed : bool) (s : State)
  : option (Conversation * option Conversation) :=
  if negb (Js.truthy (conv_id conversation)) then None
  else if negb confirmed then None
  else Some (conversation, currentConversation s).

(** [deleteConversation] after its request: the conversation is removed
    only when the server agrees; otherwise an alert is shown. *)
Definition deleteConversation_resolve (conversation : Conversation)
    (closure_current : option Conversation) (r : Js.Fetched unit)
    (s : State) : State :=
  match r with
  | Js.HttpOk _ =>
      let s := set_conversations
                 (filter (λ c, conv_id c ≠ conv_id conversation)
                    (conversations s)) s in
      if bool_decide (current_id closure_current = conv_id conversation)
      then set_messages (λ _, []) (set_currentConversation None s)
      else s
  | _ => s
  end.

Definition deleteConversation (conversation : Conversation)
    (confirmed : bool) (r : Js.Fetched unit) (s : State) : State :=
  match deleteConversation_begin conversation confirmed s with
  | None => s
  | Some (conversation, closure_current) =>
      deleteConversation_resolve conversation closure_current r s
  end.

(** *** Messages *)


(** [setInputMessage((prev) =>
      `${prev}${prev ? " " : ""}@reply: ${msg.content.slice(0, 120)} `)] *)
Definition replyToMessage (msg : Message) (s : State) : State :=
  set_inputMessage
    (inputMessage s
     +:+ (if String.eqb (inputMessage s) "" then "" else " ")
     +:+ "@reply: " +:+ String.substring 0 120 (msg_content msg) +:+ " ") s.

Definition startEdit (msg : Message) (s : State) : State :=
  set_editing (Some (msg_id msg)) (msg_content msg) s.

(** *** File upload *)

Record File : Type := mkFile {
  file_name : string;
  file_localUrl : string;
}.

(** [handleFile] after its request: the payload handed to
    [onUploadComplete]. *)
Definition handleFile_resolve (file : File) (r : Js.Fetched string)
  : FilePayload :=
  match r with
  | Js.HttpOk json =>
      {| localUrl := file_localUrl file; name := file_name file;
         data := Some json |}
  | _ =>
      {| localUrl := file_localUrl file; name := file_name file;
         data := None |}
  end.

(** [onUploadComplete={async (payload) => { if (!payload) return;
      await sendMessage(null, payload); }}] *)
Definition handleFile (file : option File) (r : Js.Fetched string)
    (random now : string) (s : State) : State * option SendClosure :=
  match file with
  | None => (s, None)
  | Some f => sendMessage_begin None (Some (handleFile_resolve f r))
                random now s
  end.

(** *** Keyboard and send button *)

(** [handleKeyDown]: Enter without Shift calls [sendMessage()]. *)
Definition handleKeyDown (key : string) (shiftKey : bool)
    (random now : string) (s : State) : State * option SendClosure :=
  if String.eqb key "Enter" && negb shiftKey
  then sendMessage_begin None None random now s
  else (s, None).

(** The send button: [disabled={isLoading || (!inputMessage &&
    !editingText)}], [onClick={() => sendMessage(editingId || null)}]. *)
Definition send_disabled (s : State) : bool :=
  isLoading s
  || (String.eqb (inputMessage s) "" && String.eqb (editingText s) "").

Definition click_send (random now : string) (s : State)
  : State * option SendClosure :=
  if send_disabled s then (s, None)
  else sendMessage_begin (Js.or_opt (editingId s) None) None random now s.

(** *** The end of sendMessage *)

(** The [try] block of [sendMessage] for an ok answer, up to
    [await loadConversations()]. *)
Definition sendMessage_answered (cl : SendClosure) (random : nat → string)
    (now : string) (json : ChatJson) (s : State) : State :=
  let s := set_messages (map (reconcile (tmpId cl) json)) s in
  let s := set_messages
             (λ prev, (prev ++ toAppend random now json)%list) s in
  if negb (bool_decide (is_Some (closure_currentConversation cl)))
     && Js.truthy (conversation_id json)
  then set_currentConversation
         (Some {| conv_id := conversation_id json; conv_title := None |}) s
  else s.


End ChatInterfaceApiHandlers.

(** ** Text predicates used in the statements *)

Module Text.

(** A string of white space only (the empty string included). *)
Definition blank (s : string) : Prop :=
  Forall (λ a, Js.is_white_space a = true) (String.list_ascii_of_string s).

End Text.

(** * Properties *)

(** ** The deleted-ids map *)

Section deleted_map.
Import Storage.
Implicit Types (c m : string) (ls : LocalStorage).

Lemma includes_spec (arr : list string) (x : string) :
  Js.includes arr x = true ↔ x ∈ arr.
Proof. unfold Js.includes. by rewrite bool_decide_eq_true. Qed.

Lemma includes_false (arr : list string) (x : string) :
  Js.includes arr x = false ↔ x ∉ arr.
Proof. unfold Js.includes. by rewrite bool_decide_eq_false. Qed.

(** What [markMessageDeletedLocally] leaves under each key. *)
Lemma stored_ids_mark c m c' ls :
  stored_ids c' (markMessageDeletedLocally c m ls) =
    if decide (c = c') then
      if Js.includes (stored_ids c ls) m then stored_ids c ls
      else (stored_ids c ls ++ [m])%list
    else stored_ids c' ls.
Proof.
  unfold stored_ids, markMessageDeletedLocally, readDeletedMap,
    writeDeletedMap; simpl.
  destruct (default ∅ (deleted ls) !! c) as [arr|] eqn:Hc; simpl.
  - rewrite Hc; simpl. destruct (Js.includes arr m) eqn:Hin.
    + destruct (decide (c = c')) as [->|Hne]; by rewrite ?Hc.
    + destruct (decide (c = c')) as [->|Hne]; by simplify_map_eq.
  - rewrite lookup_insert_eq; simpl.
    replace (Js.includes [] m) with false
      by (symmetry; apply includes_false, not_elem_of_nil).
    destruct (decide (c = c')) as [->|Hne]; by simplify_map_eq.
Qed.

Lemma isMessageLocallyDeleted_stored c m ls :
  isMessageLocallyDeleted c m ls = Js.includes (stored_ids c ls) m.
Proof.
  unfold isMessageLocallyDeleted, stored_ids.
  destruct (readDeletedMap ls !! c); simpl; [done|].
  symmetry. apply includes_false, not_elem_of_nil.
Qed.

Lemma stored_ids_remove c m c' ls :
  stored_ids c' (removeLocalDeletedMark c m ls) =
    if decide (c = c') then filter (λ id, id ≠ m) (stored_ids c ls)
    else stored_ids c' ls.
Proof.
  unfold stored_ids, removeLocalDeletedMark, readDeletedMap,
    writeDeletedMap.
  destruct (default ∅ (deleted ls) !! c) as [arr|] eqn:Hc; simpl.
  - destruct (decide (c = c')) as [->|Hne]; by simplify_map_eq.
  - destruct (decide (c = c')) as [->|Hne]; [by rewrite Hc|done].
Qed.


(** Marking one pair marks it and changes no other pair. *)
Lemma isMessageLocallyDeleted_mark c m c' m' ls :
  isMessageLocallyDeleted c' m' (markMessageDeletedLocally c m ls) =
    isMessageLocallyDeleted c' m' ls || bool_decide (c = c' ∧ m = m').
Proof.
  rewrite !isMessageLocallyDeleted_stored, stored_ids_mark.
  case_decide as Hc; subst.
  - destruct (Js.includes (stored_ids c' ls) m) eqn:Hin.
    + apply includes_spec in Hin.
      destruct (Js.includes (stored_ids c' ls) m') eqn:Hin'; [done|].
      apply includes_false in Hin'. simpl. symmetry.
      apply bool_decide_eq_false. intros [_ ->]. done.
    + apply eq_true_iff_eq.
      rewrite orb_true_iff, !includes_spec, bool_decide_eq_true.
      rewrite elem_of_app, list_elem_of_singleton. intuition congruence.
  - rewrite bool_decide_eq_false_2 by intuition congruence.
    by rewrite orb_false_r.
Qed.

(** Removing the mark of one pair unmarks it and changes no other
    pair. *)
Lemma isMessageLocallyDeleted_remove c m c' m' ls :
  isMessageLocallyDeleted c' m' (removeLocalDeletedMark c m ls) =
    isMessageLocallyDeleted c' m' ls && negb (bool_decide (c = c' ∧ m = m')).
Proof.
  rewrite !isMessageLocallyDeleted_stored, stored_ids_remove.
  case_decide as Hc; subst.
  - apply eq_true_iff_eq.
    rewrite andb_true_iff, negb_true_iff, !includes_spec,
      bool_decide_eq_false, list_elem_of_filter.
    intuition congruence.
  - rewrite bool_decide_eq_false_2 by intuition congruence.
    by rewrite andb_true_r.
Qed.




(** A pair that is marked stays as it is when marked again. *)
Lemma mark_marked c m ls arr :
  readDeletedMap ls !! c = Some arr → m ∈ arr →
  markMessageDeletedLocally c m ls = writeDeletedMap (readDeletedMap ls) ls.
Proof.
  intros Hc Hin. unfold markMessageDeletedLocally.
  rewrite Hc; simpl. rewrite Hc; simpl.
  apply includes_spec in Hin. by rewrite Hin.
Qed.

Lemma mark_lookup c m ls :
  ∃ arr, readDeletedMap (markMessageDeletedLocally c m ls) !! c = Some arr
         ∧ m ∈ arr.
Proof.
  unfold markMessageDeletedLocally, readDeletedMap at 1, writeDeletedMap;
    simpl.
  destruct (readDeletedMap ls !! c) as [arr|] eqn:Hc; simpl.
  - rewrite Hc; simpl. destruct (Js.includes arr m) eqn:Hin.
    + exists arr. by apply includes_spec in Hin.
    + exists (arr ++ [m])%list. rewrite lookup_insert_eq.
      split; [done|]. apply elem_of_app. right. by apply list_elem_of_singleton.
  - rewrite lookup_insert_eq; simpl.
    replace (Js.includes [] m) with false
      by (symmetry; apply includes_false, not_elem_of_nil).
    exists [m]. rewrite lookup_insert_eq.
    split; [done|]. by apply list_elem_of_singleton.
Qed.



End deleted_map.

(** ** ChatInterface.jsx: deleting a message *)

Section delete_message.
Import Storage ChatInterface.

Lemma storage_set_storage f s : storage (set_storage f s) = f (storage s).
Proof. done. Qed.

Lemma storage_set_messages f s : storage (set_messages f s) = storage s.
Proof. done. Qed.


Lemma isMessageLocallyDeleted_deleted key id ls ls' :
  deleted ls = deleted ls' →
  isMessageLocallyDeleted key id ls = isMessageLocallyDeleted key id ls'.
Proof.
  intros H. unfold isMessageLocallyDeleted, readDeletedMap. by rewrite H.
Qed.




End delete_message.

(** ** ChatInterface.jsx: manual scroll and auto scroll *)

Section scrolling.
Import ChatInterface.



End scrolling.

(** ** Theme persistence *)

Section theme.
Import Storage.


Lemma theme_toggleTheme s :
  ChatInterface.theme (ChatInterface.toggleTheme s)
  = if bool_decide (ChatInterface.theme s = "light") then "dark" else "light".
Proof. done. Qed.

(** A toggle always changes the theme, so its effect always runs. *)
Lemma click_toggleTheme_effect s :
  ChatInterface.click_toggleTheme s
  = ChatInterface.theme_effect (ChatInterface.toggleTheme s).
Proof.
  unfold ChatInterface.click_toggleTheme.
  rewrite bool_decide_eq_false_2; [done|].
  rewrite theme_toggleTheme. case_bool_decide; congruence.
Qed.

Lemma theme_effect_facts s :
  let s' := ChatInterface.theme_effect s in
  ChatInterface.theme s' = ChatInterface.theme s
  ∧ getItem LS_THEME_KEY (ChatInterface.storage s')
    = Some (ChatInterface.theme s)
  ∧ html_dark (ChatInterface.browser s')
    = bool_decide (ChatInterface.theme s = "dark").
Proof.
  unfold ChatInterface.theme_effect, ChatInterface.storage, getItem; simpl.
  by rewrite lookup_insert_eq.
Qed.



End theme.

(** ** sendMessage: an answered request *)

Section send_success.





(** What reconciliation leaves of a message, in ChatInterface.jsx. *)
Lemma reconcile_frame tempMsgId d msg :
  let msg' := ChatInterface.reconcile tempMsgId d msg in
  ChatInterface.msg_role msg' = ChatInterface.msg_role msg
  ∧ ChatInterface.msg_content msg' = ChatInterface.msg_content msg
  ∧ ChatInterface.msg_timestamp msg' = ChatInterface.msg_timestamp msg
  ∧ ChatInterface.msg_file msg' = ChatInterface.msg_file msg
  ∧ ChatInterface.msg_id msg'
    = if bool_decide (ChatInterface.msg_id msg = tempMsgId)
      then Js.or_else (ChatInterface.user_msg_id d) tempMsgId
      else ChatInterface.msg_id msg.
Proof. unfold ChatInterface.reconcile. by case_bool_decide. Qed.

(** The same for the part_002 variant. *)
Lemma reconcile_frame' tmpId json m :
  let m' := ChatInterfaceApi.reconcile tmpId json m in
  ChatInterfaceApi.msg_role m' = ChatInterfaceApi.msg_role m
  ∧ ChatInterfaceApi.msg_content m' = ChatInterfaceApi.msg_content m
  ∧ ChatInterfaceApi.msg_timestamp m' = ChatInterfaceApi.msg_timestamp m
  ∧ ChatInterfaceApi.msg_file m' = ChatInterfaceApi.msg_file m
  ∧ ChatInterfaceApi.msg_likes m' = ChatInterfaceApi.msg_likes m
  ∧ ChatInterfaceApi.msg_dislikes m' = ChatInterfaceApi.msg_dislikes m
  ∧ ChatInterfaceApi.msg_id m'
    = (if bool_decide (ChatInterfaceApi.msg_id m = tmpId)
       then ChatInterfaceApi.server_id json (ChatInterfaceApi.msg_id m)
       else ChatInterfaceApi.msg_id m)
  ∧ ChatInterfaceApi.msg_sending m'
    = (if bool_decide (ChatInterfaceApi.msg_id m = tmpId)
       then Some false else ChatInterfaceApi.msg_sending m).
Proof. unfold ChatInterfaceApi.reconcile. by case_bool_decide. Qed.

Lemma messages_sendMessage_ok cl random now d s :
  ChatInterface.messages
    (ChatInterface.sendMessage_resolve cl random now (Js.HttpOk d) s)
  = (map (ChatInterface.reconcile (ChatInterface.tempMsgId cl) d)
       (ChatInterface.messages s)
     ++ [ChatInterface.assistantMessage d random now])%list.
Proof. unfold ChatInterface.sendMessage_resolve. by case_bool_decide. Qed.

Lemma messages_sendMessage_ok' cl random now json s :
  ChatInterfaceApi.messages
    (ChatInterfaceApi.sendMessage_resolve cl random now (Js.HttpOk json) s)
  = (map (ChatInterfaceApi.reconcile (ChatInterfaceApi.tmpId cl) json)
       (ChatInterfaceApi.messages s)
     ++ ChatInterfaceApi.toAppend random now json)%list.
Proof.
  unfold ChatInterfaceApi.sendMessage_resolve. by destruct (negb _ && _).
Qed.

(** The optimistic step of [sendMessage] in ChatInterface.jsx. *)
Lemma sendMessage_begin_accepted random_msg random_conv now s :
  ChatInterface.send_rejected s = false →
  ∃ cl,
    (ChatInterface.sendMessage_begin random_msg random_conv now s).2 = Some cl
    ∧ ChatInterface.tempMsgId cl = ChatInterface.uid "msg-temp-" random_msg
    ∧ ChatInterface.messages
        (ChatInterface.sendMessage_begin random_msg random_conv now s).1
      = (ChatInterface.messages s
         ++ [ChatInterface.mkMessage
               (ChatInterface.uid "msg-temp-" random_msg) "user"
               (Js.trim (ChatInterface.input s)) now
               (ChatInterface.uploadedFile s)])%list.
Proof.
  intros Hok. unfold ChatInterface.sendMessage_begin. rewrite Hok.
  destruct (negb (Js.truthy _)); eexists; by split_and!.
Qed.





(** The two updates of [sendMessage] are applied to the list as they find
    it.  On a first send in ChatInterface.jsx the optimistic step changes
    the current conversation, so [loadMessages] runs in between; when its
    request fails, its fallback replaces the list, and the answer of the
    chat request is appended to the mock greeting. *)
Lemma first_send_meets_failed_load :
  (λ m, (ChatInterface.msg_role m, ChatInterface.msg_content m)) <$>
    ChatInterface.messages Sample.first_asked.1
  = [ ("user", "hi") ]
  ∧ (λ m, (ChatInterface.msg_role m, ChatInterface.msg_content m)) <$>
      ChatInterface.messages Sample.first_load_failed
    = [ ("assistant", "Hello! How can I help you today?") ]
  ∧ (λ m, (ChatInterface.msg_role m, ChatInterface.msg_content m)) <$>
      ChatInterface.messages Sample.first_answered
    = [ ("assistant", "Hello! How can I help you today?");
        ("assistant", "Hello!") ].
Proof. split_and!; vm_compute; reflexivity. Qed.

End send_success.

(** ** sendMessage: a failed request *)

Section send_failure.

Lemma append_empty_r (s : string) : s +:+ "" = s.
Proof.
  induction s as [|a s IH]; [done|].
  change (String a (s +:+ "") = String a s). by rewrite IH.
Qed.





End send_failure.

(** ** sendMessage: reconciling the temporary id *)

Section reconciliation.

Lemma truthy_false_or_else (o : option string) (d : string) :
  Js.truthy o = false → Js.or_else o d = d.
Proof.
  destruct o as [v|]; [|done]. simpl.
  by destruct (String.eqb v "").
Qed.

(** C8, as the code has it.  Reconciliation maps over the list: a message
    whose id is not the temporary id is returned as it is; the message with
    the temporary id gets the server id when the answer supplies one and
    keeps the temporary id otherwise, its role, content, timestamp and
    attachment (and, in the part_002 variant, its like and dislike
    counters) stay as they are.  The part_002 variant also sets the
    [sending] flag of that message to false. *)
Theorem reconcile_updates_id
    (tempMsgId : string) (d : ChatInterface.ResponseData)
    (msg : ChatInterface.Message)
    (tmpId : string) (json : ChatInterfaceApi.ChatJson)
    (m : ChatInterfaceApi.Message) :
  (let msg' := ChatInterface.reconcile tempMsgId d msg in
   ChatInterface.msg_role msg' = ChatInterface.msg_role msg
   ∧ ChatInterface.msg_content msg' = ChatInterface.msg_content msg
   ∧ ChatInterface.msg_timestamp msg' = ChatInterface.msg_timestamp msg
   ∧ ChatInterface.msg_file msg' = ChatInterface.msg_file msg
   ∧ (ChatInterface.msg_id msg = tempMsgId →
      ChatInterface.msg_id msg'
      = Js.or_else (ChatInterface.user_msg_id d) tempMsgId)
   ∧ (ChatInterface.msg_id msg ≠ tempMsgId → msg' = msg)
   ∧ (Js.truthy (ChatInterface.user_msg_id d) = false → msg' = msg)
   ∧ ∀ cl random now s,
       ChatInterface.messages
         (ChatInterface.sendMessage_resolve cl random now (Js.HttpOk d) s)
       = (map (ChatInterface.reconcile (ChatInterface.tempMsgId cl) d)
            (ChatInterface.messages s)
          ++ [ChatInterface.assistantMessage d random now])%list)
  ∧
  (let m' := ChatInterfaceApi.reconcile tmpId json m in
   ChatInterfaceApi.msg_role m' = ChatInterfaceApi.msg_role m
   ∧ ChatInterfaceApi.msg_content m' = ChatInterfaceApi.msg_content m
   ∧ ChatInterfaceApi.msg_timestamp m' = ChatInterfaceApi.msg_timestamp m
   ∧ ChatInterfaceApi.msg_file m' = ChatInterfaceApi.msg_file m
   ∧ ChatInterfaceApi.msg_likes m' = ChatInterfaceApi.msg_likes m
   ∧ ChatInterfaceApi.msg_dislikes m' = ChatInterfaceApi.msg_dislikes m
   ∧ (ChatInterfaceApi.msg_id m = tmpId →
      ChatInterfaceApi.msg_id m' = ChatInterfaceApi.server_id json tmpId
      ∧ ChatInterfaceApi.msg_sending m' = Some false)
   ∧ (ChatInterfaceApi.msg_id m ≠ tmpId → m' = m)
   ∧ (Js.truthy (mjoin (ChatInterfaceApi.user_message json)) = false →
      Js.truthy (ChatInterfaceApi.user_message_id json) = false →
      ChatInterfaceApi.msg_id m' = ChatInterfaceApi.msg_id m)
   ∧ ∀ cl random now s,
       ChatInterfaceApi.messages
         (ChatInterfaceApi.sendMessage_resolve cl random now (Js.HttpOk json) s)
       = (map (ChatInterfaceApi.reconcile (ChatInterfaceApi.tmpId cl) json)
            (ChatInterfaceApi.messages s)
          ++ ChatInterfaceApi.toAppend random now json)%list).
Proof.
  split.
  - destruct (reconcile_frame tempMsgId d msg) as (Hr & Hc & Ht & Hf & Hid).
    split_and!; try done.
    + intros Heq. rewrite Hid. by rewrite bool_decide_eq_true_2.
    + intros Hne. unfold ChatInterface.reconcile.
      by rewrite bool_decide_eq_false_2.
    + intros Hno. unfold ChatInterface.reconcile.
      case_bool_decide as Heq; [|done].
      rewrite (truthy_false_or_else _ _ Hno). rewrite <- Heq.
      by destruct msg.
    + intros. apply messages_sendMessage_ok.
  - destruct (reconcile_frame' tmpId json m)
      as (Hr & Hc & Ht & Hf & Hl & Hd & Hid & Hs).
    split_and!; try done.
    + intros Heq. rewrite Hid, Hs. rewrite !bool_decide_eq_true_2 by done.
      by rewrite Heq.
    + intros Hne. unfold ChatInterfaceApi.reconcile.
      by rewrite bool_decide_eq_false_2.
    + intros Hno1 Hno2. rewrite Hid. case_bool_decide; [|done].
      unfold ChatInterfaceApi.server_id.
      by rewrite (truthy_false_or_else _ _ Hno1),
                 (truthy_false_or_else _ _ Hno2).
    + intros. apply messages_sendMessage_ok'.
Qed.

(** The server id 42 replaces the temporary id of the sample question;
    the earlier message keeps its id. *)
Lemma reconcile_updates_id_witness :
  ChatInterface.msg_id Sample.hello ≠ "msg-temp-k3x9a2b"
  ∧ ChatInterface.reconcile "msg-temp-k3x9a2b"
      (ChatInterface.responseData_of {[ "user_msg_id" := "42" ]}) Sample.hello
    = Sample.hello
  ∧ ChatInterfaceApi.msg_id Sample.hello' ≠ "tmp-k3x9a2b"
  ∧ ChatInterfaceApi.reconcile "tmp-k3x9a2b"
      (Sample.answer' ChatInterfaceApi.AiAbsent) Sample.hello'
    = Sample.hello'.
Proof.
  assert (H1 : ChatInterface.msg_id Sample.hello ≠ "msg-temp-k3x9a2b")
    by (intros H; discriminate).
  assert (H2 : ChatInterfaceApi.msg_id Sample.hello' ≠ "tmp-k3x9a2b")
    by (intros H; discriminate).
  destruct (reconcile_updates_id "msg-temp-k3x9a2b"
              (ChatInterface.responseData_of {[ "user_msg_id" := "42" ]})
              Sample.hello "tmp-k3x9a2b"
              (Sample.answer' ChatInterfaceApi.AiAbsent) Sample.hello')
    as [(_ & _ & _ & _ & _ & Hother & _) (_ & _ & _ & _ & _ & _ & _ & Hother' & _)].
  split_and!; [exact H1|exact (Hother H1)|exact H2|exact (Hother' H2)].
Defined.

(** In the part_002 variant the optimistic message comes back with its
    [sending] flag changed as well as its id. *)
Lemma reconcile_clears_sending :
  ∃ m, last Sample.asked'.1.(ChatInterfaceApi.messages) = Some m
       ∧ ChatInterfaceApi.msg_id m = "tmp-k3x9a2b"
       ∧ ChatInterfaceApi.msg_sending m = Some true
       ∧ ChatInterfaceApi.msg_sending
           (ChatInterfaceApi.reconcile "tmp-k3x9a2b"
              (Sample.answer' ChatInterfaceApi.AiAbsent) m)
         ≠ ChatInterfaceApi.msg_sending m.
Proof.
  eexists. split; [vm_compute; reflexivity|].
  split_and!; [reflexivity|reflexivity|].
  intros H. vm_compute in H. discriminate.
Qed.

End reconciliation.

(** ** Switching conversations *)

Section switching.
Import Storage.



End switching.

(** ** The fields of the chat request and of its answer *)

Section chat_fields.

(** C2, evaluated.  The sample question is sent and the server answers
    with [ai_response], [conversation_id] and [user_message_id].  The
    part_002 variant posts the fields message, conversation_id and
    agent_type, shows [ai_response] as the assistant message and gives the
    user message the id [user_message_id].  ChatInterface.jsx posts
    conversation_id, agent_id and message (no agent_type), shows its
    apology text instead of [ai_response] and leaves the temporary id on
    the user message. *)
Theorem chat_fields_at_documented_answer :
  (Sample.asked'.2 = Some Sample.request'
   ∧ Js.keys (Js.JSON_stringify (ChatInterfaceApi.body Sample.request'))
     = ["message"; "conversation_id"; "agent_type"]
   ∧ (λ m, (ChatInterfaceApi.msg_id m, ChatInterfaceApi.msg_role m,
            ChatInterfaceApi.msg_content m)) <$>
       ChatInterfaceApi.messages
         (ChatInterfaceApi.sendMessage_resolve Sample.request' Sample.randoms
            "2024-05-01T10:01:05.000Z"
            (Js.HttpOk (Sample.answer'
               (ChatInterfaceApi.AiSingle
                  (ChatInterfaceApi.AiString "About 1,400 km."))))
            Sample.asked'.1)
     = [ ("7", "user", "hello");
         ("42", "user", "How far is Rome?");
         ("ai-r0", "assistant", "About 1,400 km.") ])
  ∧
  (Sample.asked.2 = Some Sample.request
   ∧ Js.keys (Js.JSON_stringify (ChatInterface.payload Sample.request))
     = ["conversation_id"; "agent_id"; "message"]
   ∧ ("agent_type" ∉ Js.keys (ChatInterface.payload Sample.request))
   ∧ (λ m, (ChatInterface.msg_id m, ChatInterface.msg_role m,
            ChatInterface.msg_content m)) <$>
       ChatInterface.messages
         (ChatInterface.sendMessage_resolve Sample.request "a1"
            "2024-05-01T10:01:05.000Z"
            (Js.HttpOk (ChatInterface.responseData_of Sample.documented_answer))
            Sample.asked.1)
     = [ ("7", "user", "hello");
         ("8", "assistant", "Hi! How can I help?");
         ("msg-temp-k3x9a2b", "user", "How far is Rome?");
         ("msg-a1", "assistant", "Sorry, I couldn't process that request.") ]).
Proof.
  split; split_and!; try (vm_compute; reflexivity).
  intros H. vm_compute in H. by repeat (apply elem_of_cons in H as [H|H]; [discriminate|]);
    apply not_elem_of_nil in H.
Qed.

End chat_fields.

(** ** The invariant: no message marked as deleted is shown *)

Section invariant.
Import Storage ChatInterface Runs.

Lemma unmarked_deleted key ls ls' msg :
  deleted ls = deleted ls' → unmarked key ls msg → unmarked key ls' msg.
Proof.
  unfold unmarked. intros H.
  by rewrite (isMessageLocallyDeleted_deleted key (msg_id msg) ls ls' H).
Qed.




















End invariant.

(** * Further properties *)

(** ** The deleted-ids map: frame, round trip, keys *)

Section deleted_map_more.
Import Storage.
Implicit Types (c m : string) (ls : LocalStorage).


Lemma mark_remove_answers c m c' m' ls :
  isMessageLocallyDeleted c m ls = false →
  isMessageLocallyDeleted c' m'
    (removeLocalDeletedMark c m (markMessageDeletedLocally c m ls))
  = isMessageLocallyDeleted c' m' ls.
Proof.
  intros Hun.
  rewrite isMessageLocallyDeleted_remove, isMessageLocallyDeleted_mark.
  destruct (decide (c = c' ∧ m = m')) as [[<- <-]|Hne].
  - rewrite Hun. by rewrite bool_decide_eq_true_2.
  - rewrite bool_decide_eq_false_2 by done.
    by rewrite orb_false_r, andb_true_r.
Qed.

(** X2.  For a pair that is not marked, marking it and then removing the
    mark gives back every answer of [isMessageLocallyDeleted], and
    removing its (absent) mark changes no answer either. *)
Theorem mark_then_remove_restores c m ls :
  isMessageLocallyDeleted c m ls = false →
  ∀ c' m',
    isMessageLocallyDeleted c' m'
      (removeLocalDeletedMark c m (markMessageDeletedLocally c m ls))
    = isMessageLocallyDeleted c' m' ls
    ∧ isMessageLocallyDeleted c' m' (removeLocalDeletedMark c m ls)
      = isMessageLocallyDeleted c' m' ls.
Proof.
  intros Hun c' m'.
  rewrite !isMessageLocallyDeleted_remove, isMessageLocallyDeleted_mark.
  destruct (decide (c = c' ∧ m = m')) as [[<- <-]|Hne].
  - rewrite Hun. by rewrite bool_decide_eq_true_2.
  - rewrite bool_decide_eq_false_2 by done.
    by rewrite orb_false_r, andb_true_r.
Qed.

Lemma mark_then_remove_restores_witness :
  isMessageLocallyDeleted "1" "9"
    (markMessageDeletedLocally "1" "7" empty_storage) = false
  ∧ isMessageLocallyDeleted "1" "7"
      (removeLocalDeletedMark "1" "9"
         (markMessageDeletedLocally "1" "9"
            (markMessageDeletedLocally "1" "7" empty_storage)))
    = true.
Proof.
  split; [reflexivity|].
  rewrite (proj1 (mark_then_remove_restores "1" "9"
             (markMessageDeletedLocally "1" "7" empty_storage)
             eq_refl "1" "7")).
  reflexivity.
Defined.





End deleted_map_more.

(** ** Strings: trimming and truncation *)

Section strings_more.
Import Text.

Lemma length_append (a b : string) :
  String.length (a +:+ b) = (String.length a + String.length b)%nat.
Proof.
  induction a as [|x a IH]; [done|].
  change (S (String.length (a +:+ b))
          = S (String.length a + String.length b)).
  by rewrite IH.
Qed.

Lemma length_substring_0 (n : nat) (s : string) :
  String.length (String.substring 0 n s) = Nat.min n (String.length s).
Proof.
  revert s. induction n as [|n IH]; intros [|a s]; simpl; try done.
  by rewrite IH.
Qed.

Lemma substring_0_all (n : nat) (s : string) :
  (String.length s ≤ n)%nat → String.substring 0 n s = s.
Proof.
  revert s. induction n as [|n IH]; intros [|a s] Hlen; simpl in *;
    try done; [lia|].
  rewrite IH; [done|lia].
Qed.

Lemma trimStart_blank (s : string) : blank s → Js.trimStart s = "".
Proof.
  unfold blank. induction s as [|a s IH]; simpl; [done|].
  intros H. apply Forall_cons in H as [Ha Hs]. rewrite Ha. by apply IH.
Qed.

Lemma blank_trimStart (s : string) : blank (Js.trimStart s) → blank s.
Proof.
  unfold blank. induction s as [|a s IH]; simpl; [done|].
  destruct (Js.is_white_space a) eqn:Ha; [|done].
  intros H. constructor; [done|by apply IH].
Qed.

Lemma trimEnd_empty (s : string) : Js.trimEnd s = "" → blank s.
Proof.
  unfold blank. induction s as [|a s IH]; simpl; [constructor|].
  destruct (Js.is_white_space a) eqn:Ha; simpl; [|done].
  destruct (String.eqb (Js.trimEnd s) "") eqn:He; [|done].
  intros _. apply String.eqb_eq in He. constructor; [done|by apply IH].
Qed.

(** The trimmed text is empty exactly for white space only. *)
Lemma trim_empty_iff (s : string) : Js.trim s = "" ↔ blank s.
Proof.
  unfold Js.trim. split.
  - intros H. by apply blank_trimStart, trimEnd_empty.
  - intros H. by rewrite trimStart_blank.
Qed.

End strings_more.

(** ** ChatInterface.jsx: more on sendMessage *)

Section send_more.
Import Storage ChatInterface ChatInterfaceHandlers.

Lemma uid_nonempty (random : string) : Js.truthy (Some (uid "conv-" random)) = true.
Proof. done. Qed.

(** The flags after the optimistic step. *)
Lemma sendMessage_begin_flags random_msg random_conv now s :
  send_rejected s = false →
  let s1 := (sendMessage_begin random_msg random_conv now s).1 in
  isSending s1 = true ∧ isTyping s1 = true ∧ input s1 = ""
  ∧ uploadedFile s1 = None ∧ storage s1 = storage s.
Proof.
  intros Hok. unfold sendMessage_begin. rewrite Hok.
  by destruct (negb (Js.truthy _)).
Qed.

(** X4.  While a send is under way no second one starts: after the
    optimistic step [isSending] is set and the input is cleared, a further
    [sendMessage] returns at once and leaves the state as it is; whatever
    the outcome of the request, the resolve step clears [isSending] and
    [isTyping] again. *)
Theorem send_is_locked_while_in_flight
    (random_msg random_conv now random_msg2 random_conv2 now2 : string)
    (s : State) :
  send_rejected s = false →
  let s1 := (sendMessage_begin random_msg random_conv now s).1 in
  isSending s1 = true
  ∧ input s1 = ""
  ∧ sendMessage_begin random_msg2 random_conv2 now2 s1 = (s1, None)
  ∧ ∀ cl random now3 (r : Js.Fetched ResponseData) s',
      isSending (sendMessage_resolve cl random now3 r s') = false
      ∧ isTyping (sendMessage_resolve cl random now3 r s') = false.
Proof.
  intros Hok.
  destruct (sendMessage_begin_flags random_msg random_conv now s Hok)
    as (Hsending & _ & Hinput & _).
  split_and!; [done|done| |].
  - unfold sendMessage_begin at 1. unfold send_rejected.
    by rewrite Hsending.
  - intros cl random now3 r s'. unfold sendMessage_resolve. done.
Qed.

Lemma send_is_locked_while_in_flight_witness :
  send_rejected Sample.composing = false
  ∧ sendMessage_begin "zzzzzzz" "yyyyyyy" "2024-05-01T10:01:01.000Z"
      Sample.asked.1
    = (Sample.asked.1, None).
Proof.
  split; [reflexivity|].
  exact (proj1 (proj2 (proj2
    (send_is_locked_while_in_flight "k3x9a2b" "q7w8e9r"
       "2024-05-01T10:01:00.000Z" "zzzzzzz" "yyyyyyy"
       "2024-05-01T10:01:01.000Z" Sample.composing eq_refl)))).
Defined.



(** The conversation of an accepted send. *)
Lemma sendMessage_begin_conversation (random_msg random_conv now : string)
    (s : State) :
  send_rejected s = false →
  ∃ cl, (sendMessage_begin random_msg random_conv now s).2 = Some cl
  ∧ closure_currentConversation cl = currentConversation s
  ∧ head (payload cl) = Some ("conversation_id", Js.of_opt (convId cl))
  ∧ let s1 := (sendMessage_begin random_msg random_conv now s).1 in
    let text := Js.trim (input s) in
    (Js.truthy (current_id (currentConversation s)) = true →
     conversations s1 = conversations s
     ∧ currentConversation s1 = currentConversation s
     ∧ convId cl = current_id (currentConversation s))
    ∧ (Js.truthy (current_id (currentConversation s)) = false →
       ∃ newConv title,
         conversations s1 = newConv :: conversations s
         ∧ currentConversation s1 = Some newConv
         ∧ conv_id newConv = Some (uid "conv-" random_conv)
         ∧ convId cl = conv_id newConv
         ∧ conv_title newConv = Some title
         ∧ (String.length title ≤ 33)%nat
         ∧ ((String.length text ≤ 30)%nat → title = text)
         ∧ ((30 < String.length text)%nat →
            title = String.substring 0 30 text +:+ "...")).
Proof.
  intros Hok. unfold sendMessage_begin. rewrite Hok.
  cbn [currentConversation set_isSending set_input set_uploadedFile].
  destruct (Js.truthy (current_id (currentConversation s))) eqn:Hopen;
    cbn [negb]; eexists; (split; [reflexivity|]); split_and!; try done.
  intros _. eexists _, _. split_and!; try reflexivity.
  - rewrite length_append, length_substring_0.
    destruct (Nat.ltb_spec 30 (String.length (Js.trim (input s))));
      cbn [String.length]; lia.
  - intros Hshort.
    rewrite (proj2 (Nat.ltb_ge _ _)) by done.
    by rewrite append_empty_r, substring_0_all.
  - intros Hlong. by rewrite (proj2 (Nat.ltb_lt _ _)).
Qed.

(** X6.  Which conversation a send belongs to.  With a conversation open
    (its id not empty) the optimistic step leaves the conversation list
    and the current conversation alone and the request carries that id.
    Otherwise it mints one conversation, puts it first in the list and
    makes it current; its title is the trimmed input, cut after 30
    characters and followed by "..." when the input is longer, so never
    longer than 33; the request carries the new id. *)
Theorem send_picks_its_conversation (random_msg random_conv now : string)
    (s : State) :
  send_rejected s = false →
  ∃ cl, (sendMessage_begin random_msg random_conv now s).2 = Some cl
  ∧ closure_currentConversation cl = currentConversation s
  ∧ head (payload cl) = Some ("conversation_id", Js.of_opt (convId cl))
  ∧ let s1 := (sendMessage_begin random_msg random_conv now s).1 in
    let text := Js.trim (input s) in
    (Js.truthy (current_id (currentConversation s)) = true →
     conversations s1 = conversations s
     ∧ currentConversation s1 = currentConversation s
     ∧ convId cl = current_id (currentConversation s))
    ∧ (Js.truthy (current_id (currentConversation s)) = false →
       ∃ newConv title,
         conversations s1 = newConv :: conversations s
         ∧ currentConversation s1 = Some newConv
         ∧ conv_id newConv = Some (uid "conv-" random_conv)
         ∧ convId cl = conv_id newConv
         ∧ conv_title newConv = Some title
         ∧ (String.length title ≤ 33)%nat
         ∧ ((String.length text ≤ 30)%nat → title = text)
         ∧ ((30 < String.length text)%nat →
            title = String.substring 0 30 text +:+ "...")).
Proof. apply sendMessage_begin_conversation. Qed.

Lemma send_picks_its_conversation_witness :
  send_rejected Sample.first_typed = false
  ∧ Js.truthy (current_id (currentConversation Sample.first_typed)) = false
  ∧ send_rejected Sample.composing = false
  ∧ Js.truthy (current_id (currentConversation Sample.composing)) = true
  ∧ conversations Sample.asked.1 = conversations Sample.composing
  ∧ ∃ newConv,
      conversations Sample.first_asked.1 = [newConv]
      ∧ conv_title newConv = Some "hi".
Proof.
  destruct (send_picks_its_conversation "k3x9a2b" "q7w8e9r"
              "2024-05-01T10:01:00.000Z" Sample.composing eq_refl)
    as (cl & _ & _ & _ & Hopen & _).
  destruct (send_picks_its_conversation "k3x9a2b" "q7w8e9r"
              "2024-05-01T10:01:00.000Z" Sample.first_typed eq_refl)
    as (cl' & _ & _ & _ & _ & Hnew).
  destruct (Hnew eq_refl)
    as (newConv & title & Hlist & _ & _ & _ & Htitle & _ & Hshort & _).
  split_and!; [reflexivity|reflexivity|reflexivity|reflexivity| |].
  - exact (proj1 (Hopen eq_refl)).
  - exists newConv. split; [exact Hlist|].
    rewrite Htitle, Hshort; [reflexivity|vm_compute; lia].
Defined.

(** What an answered send does to the conversations. *)
Lemma conversations_sendMessage_resolve cl random now r s :
  conversations (sendMessage_resolve cl random now r s)
  = match r with
    | Js.HttpOk d =>
        if bool_decide (convId cl = current_id (closure_currentConversation cl))
        then
          map (λ c, if bool_decide (conv_id c = convId cl)
                    then retitle
                           (Js.or_opt (conversation_title d)
                              (closure_currentConversation cl ≫= conv_title))
                           now (Some c)
                    else c)
            (conversations s)
        else conversations s
    | _ => conversations s
    end.
Proof.
  unfold sendMessage_resolve.
  destruct r as [message|status statusText text|d]; try done.
  by case_bool_decide.
Qed.

Lemma currentConversation_sendMessage_resolve cl random now r s :
  currentConversation (sendMessage_resolve cl random now r s)
  = match r with
    | Js.HttpOk d =>
        if bool_decide (convId cl = current_id (closure_currentConversation cl))
        then
          Some (retitle
                  (Js.or_opt (conversation_title d)
                     (closure_currentConversation cl ≫= conv_title))
                  now (currentConversation s))
        else currentConversation s
    | _ => currentConversation s
    end.
Proof.
  unfold sendMessage_resolve.
  destruct r as [message|status statusText text|d]; try done.
  by case_bool_decide.
Qed.

(** X7.  The title the server sends is applied only to a conversation
    that was open when the send started: then the current conversation
    and the entries of that id in the list get the new title (or keep the
    title that conversation had when none is sent) and a new
    [updated_at], and nothing else about the list changes.  A send that
    minted its conversation leaves the list and the current conversation
    as they are, whatever the answer says; so does a failed send. *)
Theorem server_title_needs_open_conversation
    (random_msg random_conv now random now2 : string)
    (r : Js.Fetched ResponseData) (s s' : State) :
  send_rejected s = false →
  ∃ cl, (sendMessage_begin random_msg random_conv now s).2 = Some cl
  ∧ let after := sendMessage_resolve cl random now2 r s' in
    conv_id <$> conversations after = conv_id <$> conversations s'
    ∧ (Js.truthy (current_id (currentConversation s)) = false →
       conversations after = conversations s'
       ∧ currentConversation after = currentConversation s')
    ∧ (Js.failed r = true →
       conversations after = conversations s'
       ∧ currentConversation after = currentConversation s')
    ∧ (∀ d c, r = Js.HttpOk d →
         Js.truthy (current_id (currentConversation s)) = true →
         currentConversation s' = Some c →
         currentConversation after
         = Some {| conv_id := conv_id c;
                   conv_title :=
                     Js.or_opt (conversation_title d)
                       (currentConversation s ≫= conv_title);
                   created_at := created_at c;
                   updated_at := Some now2 |}).
Proof.
  intros Hok.
  destruct (sendMessage_begin_conversation random_msg random_conv now s Hok)
    as (cl & Hcl & Hclosure & _ & Hopen & Hnew).
  exists cl. split; [done|].
  pose proof (conversations_sendMessage_resolve cl random now2 r s') as Hlist.
  pose proof (currentConversation_sendMessage_resolve cl random now2 r s')
    as Hcur.
  split_and!.
  - rewrite Hlist. destruct r as [message|status statusText text|d];
      try done.
    case_bool_decide; [|done].
    rewrite <- list_fmap_compose. apply list_fmap_ext.
    intros i c _. cbn. by case_bool_decide.
  - intros Hfalsy. destruct (Hnew Hfalsy)
      as (newConv & title & _ & _ & Hid & Hconv & _).
    rewrite Hlist, Hcur. destruct r as [message|status statusText text|d];
      try done.
    rewrite bool_decide_eq_false_2; [done|].
    rewrite Hclosure, Hconv, Hid. intros Heq.
    rewrite <- Heq in Hfalsy. done.
  - intros Hfail. rewrite Hlist, Hcur. by destruct r.
  - intros d c -> Htruthy Hc.
    destruct (Hopen Htruthy) as (_ & _ & Hconv).
    rewrite Hcur, bool_decide_eq_true_2 by (by rewrite Hclosure).
    by rewrite Hclosure, Hc.
Qed.

Lemma server_title_needs_open_conversation_witness :
  send_rejected Sample.first_typed = false
  ∧ Js.truthy (current_id (currentConversation Sample.first_typed)) = false
  ∧ ∃ cl, Sample.first_asked.2 = Some cl
      ∧ conv_title <$>
          conversations
            (sendMessage_resolve cl "a1" "2024-05-01T10:01:05.000Z"
               (Js.HttpOk (responseData_of
                             {[ "conversation_title" := "Greetings" ]}))
               Sample.first_asked.1)
        = [Some "hi"].
Proof.
  destruct (server_title_needs_open_conversation "k3x9a2b" "q7w8e9r"
              "2024-05-01T10:01:00.000Z" "a1" "2024-05-01T10:01:05.000Z"
              (Js.HttpOk (responseData_of
                            {[ "conversation_title" := "Greetings" ]}))
              Sample.first_typed Sample.first_asked.1 eq_refl)
    as (cl & Hcl & _ & Hnew & _).
  split_and!; [reflexivity|reflexivity|].
  exists cl. split; [exact Hcl|].
  rewrite (proj1 (Hnew eq_refl)). vm_compute. reflexivity.
Defined.

(** X8.  [newConversation] empties the message list, the input, the
    attachment and the edit in progress, puts a conversation titled
    "New Conversation" first in the list and makes it current; a message
    sent next goes to that conversation and mints no second one. *)
Theorem newConversation_then_send
    (random now text random_msg random_conv now2 : string) (s : State) :
  isSending s = false → ¬ Text.blank text →
  let s1 := newConversation random now s in
  let newConv :=
    {| conv_id := Some (uid "conv-" random);
       conv_title := Some "New Conversation";
       created_at := Some now; updated_at := Some now |} in
  messages s1 = [] ∧ input s1 = "" ∧ uploadedFile s1 = None
  ∧ editingId s1 = None ∧ manualScroll s1 = false
  ∧ conversations s1 = newConv :: conversations s
  ∧ currentConversation s1 = Some newConv
  ∧ ∃ cl,
      let sent := sendMessage_begin random_msg random_conv now2
                    (set_input text s1) in
      sent.2 = Some cl
      ∧ convId cl = Some (uid "conv-" random)
      ∧ conversations sent.1 = newConv :: conversations s
      ∧ currentConversation sent.1 = Some newConv
      ∧ msg_content <$> messages sent.1 = [Js.trim text].
Proof.
  intros Hsending Hvisible. split_and!; try done.
  assert (Hok : send_rejected (set_input text (newConversation random now s))
                = false).
  { unfold send_rejected. cbn. rewrite Hsending. cbn.
    rewrite andb_true_r. apply String.eqb_neq. intros H.
    by apply Hvisible, trim_empty_iff. }
  destruct (sendMessage_begin_conversation random_msg random_conv now2
              (set_input text (newConversation random now s)) Hok)
    as (cl & Hcl & _ & _ & Hopen & _).
  destruct (Hopen eq_refl) as (Hlist & Hcur & Hconv).
  destruct (sendMessage_begin_accepted random_msg random_conv now2
              (set_input text (newConversation random now s)) Hok)
    as (cl2 & Hcl2 & _ & Hmsgs).
  exists cl. split_and!; try done.
  by rewrite Hmsgs.
Qed.

Lemma newConversation_then_send_witness :
  isSending Sample.open_trip = false
  ∧ ¬ Text.blank "Next stop?"
  ∧ length (conversations
              (sendMessage_begin "k3x9a2b" "q7w8e9r"
                 "2024-05-01T10:05:01.000Z"
                 (set_input "Next stop?"
                    (newConversation "n1n1n1n" "2024-05-01T10:05:00.000Z"
                       Sample.open_trip))).1)
    = 1%nat.
Proof.
  assert (Hv : ¬ Text.blank "Next stop?").
  { intros H. apply Forall_cons in H as [H _]. vm_compute in H.
    discriminate. }
  destruct (newConversation_then_send "n1n1n1n" "2024-05-01T10:05:00.000Z"
              "Next stop?" "k3x9a2b" "q7w8e9r" "2024-05-01T10:05:01.000Z"
              Sample.open_trip eq_refl Hv)
    as (_ & _ & _ & _ & _ & _ & _ & cl & _ & _ & Hlist & _).
  split_and!; [reflexivity|exact Hv|].
  rewrite Hlist. reflexivity.
Defined.

End send_more.

(** ** ChatInterface.jsx: editing and deleting *)

Section edit_delete_more.
Import Storage ChatInterface ChatInterfaceHandlers.

(** X9.  [saveEditedMessage] does nothing without an id or without a
    current conversation.  Otherwise it rewrites, in place, the content
    and the timestamp of the messages that carry the id and nothing else:
    the ids, roles and attachments of all messages, their number and
    order, and every message of another id stay as they are (so the list
    is unchanged when no message has the id); the edit in progress is
    closed. *)
Theorem edit_changes_content_only (id newContent now : string) (s : State) :
  let s1 := saveEditedMessage_begin id newContent now s in
  (id = "" ∨ currentConversation s = None → s1 = s)
  ∧ (id ≠ "" → is_Some (currentConversation s) →
     msg_id <$> messages s1 = msg_id <$> messages s
     ∧ msg_role <$> messages s1 = msg_role <$> messages s
     ∧ msg_file <$> messages s1 = msg_file <$> messages s
     ∧ (∀ i m, messages s !! i = Some m →
          ∃ m', messages s1 !! i = Some m'
            ∧ (msg_id m ≠ id → m' = m)
            ∧ (msg_id m = id →
               msg_content m' = newContent ∧ msg_timestamp m' = now))
     ∧ ((∀ m, m ∈ messages s → msg_id m ≠ id) → messages s1 = messages s)
     ∧ editingId s1 = None ∧ editingText s1 = ""
     ∧ storage s1 = storage s).
Proof.
  unfold saveEditedMessage_begin. split.
  - intros [->|Hnone]; [done|]. rewrite Hnone. cbn.
    by rewrite orb_true_r.
  - intros Hid [c Hc]. rewrite (proj2 (String.eqb_neq _ _) Hid), Hc.
    rewrite bool_decide_eq_true_2 by eauto. cbn [orb negb].
    cbn [messages set_messages set_editing editingId editingText storage
         browser].
    split_and!; try done.
    + rewrite <- list_fmap_compose. apply list_fmap_ext.
      intros i m _. cbn. by case_bool_decide.
    + rewrite <- list_fmap_compose. apply list_fmap_ext.
      intros i m _. cbn. by case_bool_decide.
    + rewrite <- list_fmap_compose. apply list_fmap_ext.
      intros i m _. cbn. by case_bool_decide.
    + intros i m Hm. eexists. rewrite list_lookup_fmap, Hm.
      split; [reflexivity|]. split; intros H.
      * by rewrite bool_decide_eq_false_2.
      * by rewrite bool_decide_eq_true_2.
    + intros Hnone. rewrite <- (list_fmap_id (messages s)) at 2.
      apply list_fmap_ext. intros i m Hm. cbn.
      rewrite bool_decide_eq_false_2; [done|].
      apply Hnone. by eapply list_elem_of_lookup_2.
Qed.

Lemma edit_changes_content_only_witness :
  "7" ≠ ""
  ∧ is_Some (currentConversation Sample.open_trip)
  ∧ (λ m, (msg_id m, msg_content m)) <$>
      messages (click_saveEdit "2024-05-01T10:04:00.000Z"
                  (set_editing (Some "7") "hello there"
                     (startEdit Sample.hello Sample.open_trip)))
    = [ ("7", "hello there"); ("8", "Hi! How can I help?") ].
Proof.
  assert (H7 : "7" ≠ "") by (intros H; discriminate).
  assert (Hc : is_Some (currentConversation Sample.open_trip)) by eauto.
  destruct (edit_changes_content_only "7" "hello there"
              "2024-05-01T10:04:00.000Z"
              (set_editing (Some "7") "hello there"
                 (startEdit Sample.hello Sample.open_trip)))
    as (_ & Hedit).
  destruct (Hedit H7 Hc) as (Hids & _).
  split_and!; [exact H7|exact Hc|].
  vm_compute. reflexivity.
Defined.

(** X10.  [deleteConversation] does nothing for a conversation without an
    id or when the user does not confirm.  Otherwise it removes every
    conversation of that id from the list, in ChatInterface.jsx whether
    the server accepts the request or not; when the conversation was the
    current one the current conversation becomes null and the message
    list empty, otherwise both stay; the locally deleted marks are not
    touched. *)
Theorem deleteConversation_is_local (conversation : Conversation)
    (confirmed : bool) (r : Js.Fetched unit) (s : State) :
  let s1 := deleteConversation conversation confirmed r s in
  (Js.truthy (conv_id conversation) = false ∨ confirmed = false → s1 = s)
  ∧ (Js.truthy (conv_id conversation) = true → confirmed = true →
     conversations s1
       = filter (λ c, conv_id c ≠ conv_id conversation) (conversations s)
     ∧ (∀ c, c ∈ conversations s1 ↔
             c ∈ conversations s ∧ conv_id c ≠ conv_id conversation)
     ∧ (current_id (currentConversation s) = conv_id conversation →
        currentConversation s1 = None ∧ messages s1 = [])
     ∧ (current_id (currentConversation s) ≠ conv_id conversation →
        currentConversation s1 = currentConversation s
        ∧ messages s1 = messages s)
     ∧ storage s1 = storage s).
Proof.
  unfold deleteConversation, deleteConversation_begin. split.
  - intros [->| ->]; [done|]. by destruct (negb _).
  - intros -> ->. cbn [negb].
    assert (Hsame : ∀ s2,
      match r with
      | Js.HttpOk _ =>
          deleteConversation_resolve conversation (currentConversation s) s2
      | _ => deleteConversation_resolve conversation (currentConversation s) s2
      end = deleteConversation_resolve conversation (currentConversation s) s2)
      by (intros; by destruct r).
    rewrite Hsame. unfold deleteConversation_resolve.
    split_and!.
    + by case_bool_decide.
    + intros c.
      assert (Hlist :
        conversations
          (if bool_decide (current_id (currentConversation s)
                           = conv_id conversation)
           then set_messages (λ _, [])
                  (set_currentConversation (λ _, None)
                     (set_conversations
                        (filter (λ c, conv_id c ≠ conv_id conversation)) s))
           else set_conversations
                  (filter (λ c, conv_id c ≠ conv_id conversation)) s)
        = filter (λ c, conv_id c ≠ conv_id conversation) (conversations s))
        by (by case_bool_decide).
      rewrite Hlist, list_elem_of_filter. tauto.
    + intros Heq. by rewrite bool_decide_eq_true_2.
    + intros Hne. by rewrite bool_decide_eq_false_2.
    + by case_bool_decide.
Qed.

Lemma deleteConversation_is_local_witness :
  Js.truthy (conv_id Sample.trip) = true
  ∧ current_id (currentConversation Sample.open_trip) = conv_id Sample.trip
  ∧ messages (deleteConversation Sample.trip true
                (Js.HttpError 500 "Internal Server Error" "")
                Sample.open_trip) = [].
Proof.
  destruct (deleteConversation_is_local Sample.trip true
              (Js.HttpError 500 "Internal Server Error" "")
              Sample.open_trip) as (_ & H).
  destruct (H eq_refl eq_refl) as (_ & _ & Hcur & _).
  split_and!; [reflexivity|reflexivity|].
  exact (proj2 (Hcur eq_refl)).
Defined.

(** X11.  Deleting the same message again changes nothing more: the
    list, the current conversation and the stored marks are those after
    the first delete. *)
Theorem deleteMessage_twice (msg : Message) (s : State) :
  let once := (deleteMessage_begin msg s).1 in
  let twice := (deleteMessage_begin msg once).1 in
  messages twice = messages once
  ∧ currentConversation twice = currentConversation once
  ∧ storage twice = storage once.
Proof.
  unfold deleteMessage_begin.
  destruct (currentConversation s) as [c|] eqn:Hc; cbn [fst].
  - cbn [currentConversation set_storage set_browser set_messages].
    rewrite Hc. cbn [fst messages set_storage set_browser set_messages].
    split_and!; [|done|].
    + apply list_filter_filter_l. done.
    + rewrite !storage_set_storage, !storage_set_messages,
        storage_set_storage, storage_set_messages.
      destruct (mark_lookup (conv_key c) (msg_id msg) (storage s))
        as (arr & Harr & Hin).
      rewrite (mark_marked _ _ _ arr Harr Hin).
      by unfold markMessageDeletedLocally, writeDeletedMap.
  - by rewrite Hc.
Qed.

(** X12.  A delete the server accepts leaves no trace in localStorage:
    when the message was not marked before, every answer of
    [isMessageLocallyDeleted] is afterwards what it was, and the message
    is gone from the list. *)
Theorem accepted_delete_leaves_no_mark (msg : Message) (c : Conversation)
    (u : unit) (s : State) :
  currentConversation s = Some c →
  isMessageLocallyDeleted (conv_key c) (msg_id msg) (storage s) = false →
  let final := deleteMessage_resolve c msg (Js.HttpOk u)
                 (deleteMessage_begin msg s).1 in
  messages final = filter (λ m, msg_id m ≠ msg_id msg) (messages s)
  ∧ ∀ key id,
      isMessageLocallyDeleted key id (storage final)
      = isMessageLocallyDeleted key id (storage s).
Proof.
  intros Hc Hun. unfold deleteMessage_begin. rewrite Hc. cbn [fst].
  unfold deleteMessage_resolve. split; [done|].
  intros key id. rewrite !storage_set_storage, storage_set_messages.
  by apply mark_remove_answers.
Qed.

Lemma accepted_delete_leaves_no_mark_witness :
  currentConversation Sample.open_trip = Some Sample.trip
  ∧ isMessageLocallyDeleted "1" "7" (storage Sample.open_trip) = false
  ∧ isMessageLocallyDeleted "1" "7"
      (storage (deleteMessage_resolve Sample.trip Sample.hello (Js.HttpOk ())
                  (deleteMessage_begin Sample.hello Sample.open_trip).1))
    = false.
Proof.
  split_and!; [reflexivity|reflexivity|].
  rewrite (proj2 (accepted_delete_leaves_no_mark Sample.hello Sample.trip ()
                    Sample.open_trip eq_refl eq_refl) "1" "7").
  reflexivity.
Defined.

End edit_delete_more.

(** ** ChatInterface.jsx: attachments and agents *)

Section upload_agents_more.
Import Storage ChatInterface ChatInterfaceHandlers.

(** The request of an accepted send. *)
Lemma sendMessage_begin_payload random_msg random_conv now s :
  send_rejected s = false →
  ∃ cl,
    (sendMessage_begin random_msg random_conv now s).2 = Some cl
    ∧ payload cl
      = [ ("conversation_id", Js.of_opt (convId cl));
          ("agent_id", Js.VString (selectedAgent s));
          ("message", Js.VString (Js.trim (input s)));
          ("file_data", file_data (uploadedFile s));
          ("file_name", Js.of_opt (name <$> uploadedFile s)) ].
Proof.
  intros Hok. unfold sendMessage_begin. rewrite Hok.
  destruct (negb (Js.truthy _)); eexists; by split.
Qed.

(** X13.  Whatever the outcome of the upload, the picked file becomes the
    attachment, with its name and local URL, server data only for an ok
    answer and an error text otherwise.  With an attachment a send goes
    out even for blank input: the user message carries the attachment,
    the request names the file and carries the server data (null after a
    failed upload), and the attachment is cleared for the next message. *)
Theorem upload_then_send (file : File) (r : Js.Fetched string)
    (random_msg random_conv now : string) (s : State) :
  isSending s = false →
  let up := handleFile_resolve file r in
  let s1 := handleFile (Some file) r s in
  uploadedFile s1 = Some up
  ∧ name up = file_name file ∧ localUrl up = file_localUrl file
  ∧ (is_Some (data up) ↔ Js.failed r = false)
  ∧ (is_Some (error up) ↔ Js.failed r = true)
  ∧ ∃ cl,
      let sent := sendMessage_begin random_msg random_conv now s1 in
      sent.2 = Some cl
      ∧ uploadedFile sent.1 = None
      ∧ last (messages sent.1)
        = Some (mkMessage (uid "msg-temp-" random_msg) "user"
                  (Js.trim (input s)) now (Some up))
      ∧ (payload cl).*1
        = ["conversation_id"; "agent_id"; "message"; "file_data"; "file_name"]
      ∧ (payload cl).*2 !! 3%nat
        = Some (match data up with
                | Some d => Js.VData d
                | None => Js.VNull
                end)
      ∧ (payload cl).*2 !! 4%nat = Some (Js.VString (file_name file)).
Proof.
  intros Hsending.
  assert (Hok : send_rejected (handleFile (Some file) r s) = false).
  { unfold send_rejected. cbn. rewrite Hsending. cbn.
    apply andb_false_r. }
  split_and!.
  - done.
  - by destruct r.
  - by destruct r.
  - destruct r; cbn; split; try done; intros [? [=]].
  - destruct r; cbn; split; try done; intros [? [=]].
  - destruct (sendMessage_begin_flags random_msg random_conv now _ Hok)
      as (_ & _ & _ & Hfile & _).
    destruct (sendMessage_begin_accepted random_msg random_conv now _ Hok)
      as (cl0 & _ & _ & Hmsgs).
    destruct (sendMessage_begin_payload random_msg random_conv now _ Hok)
      as (cl & Hcl & Hpayload).
    exists cl. split_and!; [exact Hcl|exact Hfile| | | |].
    + rewrite Hmsgs. by rewrite last_snoc.
    + by rewrite Hpayload.
    + rewrite Hpayload. by destruct r.
    + rewrite Hpayload. by destruct r.
Qed.

Lemma upload_then_send_witness :
  isSending Sample.open_trip = false
  ∧ ∃ cl,
      (sendMessage_begin "k3x9a2b" "q7w8e9r" "2024-05-01T10:06:00.000Z"
         (handleFile (Some (mkFile "map.png" "blob:1"))
            (Js.HttpError 413 "Payload Too Large" "") Sample.open_trip)).2
      = Some cl
      ∧ Js.JSON_stringify (payload cl)
        = [ ("conversation_id", Js.VString "1");
            ("agent_id", Js.VString "general");
            ("message", Js.VString "");
            ("file_data", Js.VNull);
            ("file_name", Js.VString "map.png") ].
Proof.
  destruct (upload_then_send (mkFile "map.png" "blob:1")
              (Js.HttpError 413 "Payload Too Large" "")
              "k3x9a2b" "q7w8e9r" "2024-05-01T10:06:00.000Z"
              Sample.open_trip eq_refl)
    as (_ & _ & _ & _ & _ & cl & Hcl & _).
  split; [reflexivity|].
  exists cl. split; [exact Hcl|].
  vm_compute in Hcl. injection Hcl as <-. vm_compute. reflexivity.
Defined.

(** X14.  [loadAgents] always selects the first key of the agents it
    sets.  After a failed request, or an answer without an [agents]
    field, these are the four fallback agents and "general" is selected;
    the selection is missing only when the server sends an empty agents
    object, and then the selector shows its "No agents" text.  Whenever
    there are agents, the selected key is one of the options shown. *)
Theorem loadAgents_selects_first_agent
    (r : Js.Fetched (option (list (string * Agent)))) :
  let agents := (loadAgents_resolve r).1 in
  let selected := (loadAgents_resolve r).2 in
  selected = head agents.*1
  ∧ (Js.failed r = true ∨ r = Js.HttpOk None →
     agents = FALLBACK_AGENTS ∧ selected = Some "general")
  ∧ (selected = None ↔ r = Js.HttpOk (Some []))
  ∧ (selected = None ↔ AgentSelector agents = None)
  ∧ (∀ k, selected = Some k →
       ∃ options, AgentSelector agents = Some options ∧ k ∈ options.*1).
Proof.
  split_and!.
  - by destruct r as [| |[agents|]].
  - intros [Hfail| ->]; [|done]. by destruct r.
  - destruct r as [| |[[|[k a] agents]|]]; cbn; split; try done;
      intros [=].
  - destruct r as [| |[[|[k a] agents]|]]; cbn; split; done.
  - intros k Hk.
    assert (Hagents : ∃ a rest, (loadAgents_resolve r).1 = (k, a) :: rest).
    { destruct r as [| |[[|[k0 a] agents]|]]; cbn in *; simplify_eq;
        eauto. }
    destruct Hagents as (a & rest & ->).
    unfold AgentSelector. cbn. eexists. split; [reflexivity|].
    cbn. by left.
Qed.

Lemma loadAgents_selects_first_agent_witness :
  Js.failed (A:=option (list (string * Agent))) (Js.Rejected "Failed to fetch")
    = true
  ∧ (loadAgents_resolve (Js.Rejected "Failed to fetch")).2 = Some "general"
  ∧ ∃ options,
      AgentSelector (loadAgents_resolve (Js.Rejected "Failed to fetch")).1
        = Some options
      ∧ "general" ∈ options.*1.
Proof.
  destruct (loadAgents_selects_first_agent (Js.Rejected "Failed to fetch"))
    as (_ & Hfail & _ & _ & Hshown).
  destruct (Hfail (or_introl eq_refl)) as (_ & Hsel).
  split_and!; [reflexivity|exact Hsel|exact (Hshown "general" Hsel)].
Defined.

End upload_agents_more.

(** ** Theme: what stays in step *)

Section theme_more.
Import Storage.






(** X16.  One click on either theme button always ends in light or
    dark, and two clicks give back a theme that was light or dark.  A
    theme that is neither becomes light in ChatInterface.jsx and dark in
    the ThemeToggle component. *)
Theorem theme_toggle_twice (s : ChatInterface.State) (t : ThemeToggle.State) :
  (ChatInterface.theme (ChatInterface.click_toggleTheme s) = "light"
   ∨ ChatInterface.theme (ChatInterface.click_toggleTheme s) = "dark")
  ∧ (ChatInterface.theme s = "light" ∨ ChatInterface.theme s = "dark" →
     ChatInterface.theme
       (ChatInterface.click_toggleTheme (ChatInterface.click_toggleTheme s))
     = ChatInterface.theme s)
  ∧ (ChatInterface.theme s ≠ "light" → ChatInterface.theme s ≠ "dark" →
     ChatInterface.theme (ChatInterface.click_toggleTheme s) = "light")
  ∧ (ThemeToggle.theme (ThemeToggle.click t) = "light"
     ∨ ThemeToggle.theme (ThemeToggle.click t) = "dark")
  ∧ (ThemeToggle.theme t = "light" ∨ ThemeToggle.theme t = "dark" →
     ThemeToggle.theme (ThemeToggle.click (ThemeToggle.click t))
     = ThemeToggle.theme t)
  ∧ (ThemeToggle.theme t ≠ "light" → ThemeToggle.theme t ≠ "dark" →
     ThemeToggle.theme (ThemeToggle.click t) = "dark").
Proof.
  assert (Hclick : ∀ s0,
    ChatInterface.theme (ChatInterface.click_toggleTheme s0)
    = if bool_decide (ChatInterface.theme s0 = "light") then "dark"
      else "light").
  { intros s0. rewrite click_toggleTheme_effect.
    destruct (theme_effect_facts (ChatInterface.toggleTheme s0)) as (-> & _).
    apply theme_toggleTheme. }
  split_and!.
  - rewrite Hclick. case_bool_decide; eauto.
  - intros [Hl|Hd]; rewrite !Hclick.
    + by rewrite Hl.
    + by rewrite Hd.
  - intros Hl _. rewrite Hclick. by rewrite bool_decide_eq_false_2.
  - cbn. unfold ThemeToggle.toggle. case_bool_decide; eauto.
  - intros [Hl|Hd]; cbn; unfold ThemeToggle.toggle.
    + by rewrite Hl.
    + by rewrite Hd.
  - intros _ Hd. cbn. unfold ThemeToggle.toggle.
    by rewrite bool_decide_eq_false_2.
Qed.

Lemma theme_toggle_twice_witness :
  ChatInterface.theme (ChatInterface.set_theme (λ _, "blue") Sample.open_trip)
    ≠ "light"
  ∧ ChatInterface.theme
      (ChatInterface.click_toggleTheme
         (ChatInterface.set_theme (λ _, "blue") Sample.open_trip))
    = "light"
  ∧ ThemeToggle.theme
      (ThemeToggle.click
         (ThemeToggle.mkState "blue" Sample.fresh_browser))
    = "dark".
Proof.
  assert (H1 : "blue" ≠ "light") by (intros H; discriminate).
  assert (H2 : "blue" ≠ "dark") by (intros H; discriminate).
  destruct (theme_toggle_twice
              (ChatInterface.set_theme (λ _, "blue") Sample.open_trip)
              (ThemeToggle.mkState "blue" Sample.fresh_browser))
    as (_ & _ & Hv1 & _ & _ & Hv2).
  split_and!; [exact H1|exact (Hv1 H1 H2)|exact (Hv2 H1 H2)].
Defined.




End theme_more.

(** ** part_002: reactions, replies, edits *)

Section api_messages_more.
Import ChatInterfaceApi ChatInterfaceApiHandlers.

Lemma prefix_append (a b : string) : String.prefix a (a +:+ b) = true.
Proof.
  induction a as [|x a IH]; [by destruct b|].
  change (String.prefix (String x a) (String x (a +:+ b)) = true).
  simpl. by destruct (Ascii.ascii_dec x x).
Qed.



(** X19.  A reply keeps the draft: in the part_002 variant the text
    already typed stays at the front of the input and the quotation added
    after it holds at most the first 120 characters of the message, so the
    input grows by at most 130 characters; in ChatInterface.jsx the reply
    handler replaces the input by "@", the message id and a space,
    whatever was typed. *)
Theorem reply_and_the_draft (msg : Message) (s : State)
    (msg1 : ChatInterface.Message) (s1 : ChatInterface.State) :
  String.prefix (inputMessage s) (inputMessage (replyToMessage msg s)) = true
  ∧ (String.length (inputMessage (replyToMessage msg s))
     ≤ String.length (inputMessage s) + 130)%nat
  ∧ (inputMessage s = "" →
     inputMessage (replyToMessage msg s)
     = "@reply: " +:+ String.substring 0 120 (msg_content msg) +:+ " ")
  ∧ messages (replyToMessage msg s) = messages s
  ∧ ChatInterface.input (ChatInterfaceHandlers.reply msg1 s1)
    = "@" +:+ ChatInterface.msg_id msg1 +:+ " ".
Proof.
  unfold replyToMessage. cbn [inputMessage set_inputMessage messages].
  split_and!; try done.
  - apply prefix_append.
  - rewrite !length_append, length_substring_0.
    destruct (String.eqb (inputMessage s) ""); cbn [String.length]; lia.
  - intros ->. done.
Qed.

Lemma reply_and_the_draft_witness :
  inputMessage (set_inputMessage "" Sample.composing') = ""
  ∧ inputMessage
      (replyToMessage Sample.hello' (set_inputMessage "" Sample.composing'))
    = "@reply: hello ".
Proof.
  split; [reflexivity|].
  rewrite (proj1 (proj2 (proj2
    (reply_and_the_draft Sample.hello'
       (set_inputMessage "" Sample.composing')
       Sample.hello Sample.open_trip))) eq_refl).
  reflexivity.
Defined.

(** The optimistic step of [sendMessage] whenever it is not an edit and
    there is text or a file. *)
Lemma sendMessage_begin_sent' filePayload random now s :
  Js.trim (inputMessage s) ≠ "" ∨ is_Some filePayload →
  ∃ cl,
    sendMessage_begin None filePayload random now s
    = (set_busy true true
         (set_inputMessage ""
            (set_messages
               (λ prev,
                  (prev ++ [mkMessage (uid "tmp-" random) "user"
                              (Js.trim (inputMessage s)) now (Some true) 0 0
                              filePayload])%list) s)),
       Some cl)
    ∧ tmpId cl = uid "tmp-" random
    ∧ closure_currentConversation cl = currentConversation s
    ∧ body cl
      = ([ ("message", Js.VString (Js.trim (inputMessage s)));
           ("conversation_id", Js.of_opt (current_id (currentConversation s)));
           ("agent_type", Js.VString (selectedAgent s)) ]
         ++ match filePayload ≫= data with
            | Some d => [("file", Js.VData d)]
            | None => []
            end)%list.
Proof.
  intros Hgo. unfold sendMessage_begin. cbn [Js.truthy].
  assert (Hguard : String.eqb (Js.trim (inputMessage s)) ""
                   && negb (bool_decide (is_Some filePayload)) = false).
  { destruct Hgo as [Htext|Hfile].
    - by rewrite (proj2 (String.eqb_neq _ _) Htext).
    - rewrite (bool_decide_eq_true_2 _ Hfile). apply andb_false_r. }
  rewrite Hguard. eexists. by split_and!.
Qed.

(** X20.  Saving an edit through [sendMessage]: with an edit open and its
    text not blank, no chat request goes out and no message is appended;
    the messages with the edited id get the trimmed text, the draft in
    the input stays, and the edit is closed.  With a blank edit text
    nothing happens and the edit stays open. *)
Theorem edit_goes_through_send (editId random now : string) (s : State) :
  editId ≠ "" →
  let after := sendMessage_begin (Some editId) None random now s in
  after.2 = None
  ∧ (Text.blank (editingText s) → after.1 = s)
  ∧ (¬ Text.blank (editingText s) →
     length (messages after.1) = length (messages s)
     ∧ msg_id <$> messages after.1 = msg_id <$> messages s
     ∧ (∀ i m, messages s !! i = Some m →
          ∃ m', messages after.1 !! i = Some m'
            ∧ (msg_id m = editId →
               msg_content m' = Js.trim (editingText s))
            ∧ (msg_id m ≠ editId → m' = m))
     ∧ inputMessage after.1 = inputMessage s
     ∧ editingId after.1 = None ∧ editingText after.1 = ""
     ∧ isLoading after.1 = isLoading s).
Proof.
  intros Hid. unfold sendMessage_begin. cbn [Js.truthy].
  rewrite (proj2 (String.eqb_neq _ _) Hid). cbn [negb].
  destruct (String.eqb (Js.trim (editingText s)) "") eqn:Hblank; cbn.
  - apply String.eqb_eq, trim_empty_iff in Hblank. by split_and!.
  - apply String.eqb_neq in Hblank.
    split_and!; [done| |].
    + intros H. by apply trim_empty_iff in H.
    + intros _. split_and!; try done.
      * apply length_map.
      * rewrite <- list_fmap_compose. apply list_fmap_ext.
        intros i m _. cbn. by case_bool_decide.
      * intros i m Hm. eexists. rewrite list_lookup_fmap, Hm.
        split; [reflexivity|]. split; intros H.
        -- by rewrite bool_decide_eq_true_2.
        -- by rewrite bool_decide_eq_false_2.
Qed.

Lemma edit_goes_through_send_witness :
  "7" ≠ ""
  ∧ ¬ Text.blank "  hello there "
  ∧ (λ m, (msg_id m, msg_content m)) <$>
      messages (sendMessage_begin (Some "7") None "k3x9a2b"
                  "2024-05-01T10:04:00.000Z"
                  (set_editing (Some "7") "  hello there " Sample.composing')).1
    = [ ("7", "hello there") ].
Proof.
  assert (H7 : "7" ≠ "") by (intros H; discriminate).
  assert (Hv : ¬ Text.blank "  hello there ").
  { intros H. do 2 apply Forall_cons in H as [_ H].
    apply Forall_cons in H as [H _]. vm_compute in H. discriminate. }
  destruct (edit_goes_through_send "7" "k3x9a2b" "2024-05-01T10:04:00.000Z"
              (set_editing (Some "7") "  hello there " Sample.composing') H7)
    as (_ & _ & Hedit).
  destruct (Hedit Hv) as (Hlen & _).
  split_and!; [exact H7|exact Hv|].
  vm_compute. reflexivity.
Defined.

End api_messages_more.

(** ** part_002: conversations, agents, uploads, keyboard *)

Section api_conversations_more.
Import ChatInterfaceApi ChatInterfaceApiHandlers.

(** X21.  In the part_002 variant a conversation is deleted only with the
    server's consent: when the request fails, or the user does not
    confirm, the state stays as it was.  After an ok answer exactly the
    conversations with that id leave the list, and the messages and the
    current conversation are cleared only when the deleted conversation was
    the current one. *)
Theorem deleteConversation_waits_for_server (conversation : Conversation)
    (confirmed : bool) (r : Js.Fetched unit) (s : State) :
  let after := deleteConversation conversation confirmed r s in
  (Js.failed r = true → after = s)
  ∧ (confirmed = false → after = s)
  ∧ (Js.truthy (conv_id conversation) = true → confirmed = true →
     Js.failed r = false →
     (∀ c, c ∈ conversations after
           ↔ c ∈ conversations s ∧ conv_id c ≠ conv_id conversation)
     ∧ (current_id (currentConversation s) = conv_id conversation →
        currentConversation after = None ∧ messages after = [])
     ∧ (current_id (currentConversation s) ≠ conv_id conversation →
        currentConversation after = currentConversation s
        ∧ messages after = messages s)).
Proof.
  unfold deleteConversation, deleteConversation_begin.
  split_and!.
  - intros Hr. destruct (negb (Js.truthy _)); [done|].
    destruct (negb confirmed); [done|]. by destruct r.
  - intros ->. by destruct (negb (Js.truthy _)).
  - intros -> -> Hr. cbn [negb]. destruct r as [| |[]]; try done.
    unfold deleteConversation_resolve.
    split_and!.
    + intros c.
      assert (Hlist : ∀ f, conversations
                (if bool_decide (current_id (currentConversation s)
                                 = conv_id conversation)
                 then set_messages (λ _, [])
                        (set_currentConversation None
                           (set_conversations f s))
                 else set_conversations f s) = f).
      { intros f. by case_bool_decide. }
      rewrite Hlist, list_elem_of_filter. tauto.
    + intros Hcur. by rewrite (bool_decide_eq_true_2 _ Hcur).
    + intros Hcur. by rewrite (bool_decide_eq_false_2 _ Hcur).
Qed.

Lemma deleteConversation_waits_for_server_witness :
  Js.failed (A:=unit) (Js.HttpError 500 "Internal Server Error" "") = true
  ∧ deleteConversation Sample.trip' true
      (Js.HttpError 500 "Internal Server Error" "") Sample.composing'
    = Sample.composing'.
Proof.
  split; [reflexivity|].
  exact (proj1 (deleteConversation_waits_for_server Sample.trip' true
                  (Js.HttpError 500 "Internal Server Error" "")
                  Sample.composing') eq_refl).
Defined.

(** X22.  The agent of a request in the part_002 variant.  [loadAgents]
    runs once, from the first render, where no agent is selected: an ok
    answer selects the first key of the agents object, or "general" when
    there is none, and a send after it posts that as agent_type; a failed
    load leaves the agents and the selection alone, so that a send after
    it posts the selection as it was (the empty string at the start).  A
    load started with an agent selected never changes the selection. *)
Theorem loadAgents_and_agent_type (r : Js.Fetched (option (list string)))
    (agents : list string) (random now : string) (s : State) :
  Js.trim (inputMessage s) ≠ "" →
  let loaded := loadAgents_resolve "" r agents s in
  (∃ cl,
     (sendMessage_begin None None random now loaded.2).2 = Some cl
     ∧ (∀ data, r = Js.HttpOk data →
          loaded.1 = default [] data
          ∧ body cl !! 2%nat
            = Some ("agent_type",
                    Js.VString (hd "general" (default [] data))))
     ∧ (Js.failed r = true →
          loaded = (agents, s)
          ∧ body cl !! 2%nat
            = Some ("agent_type", Js.VString (selectedAgent s))))
  ∧ (∀ closure, closure ≠ "" →
       (loadAgents_resolve closure r agents s).2 = s).
Proof.
  intros Htext. split.
  - assert (Hinput : inputMessage (loadAgents_resolve "" r agents s).2
                     = inputMessage s).
    { destruct r as [| |[[|k keys]|]]; done. }
    destruct (sendMessage_begin_sent' None random now
                (loadAgents_resolve "" r agents s).2) as (cl & Hcl & _ & _ & Hbody).
    { left. by rewrite Hinput. }
    exists cl. split_and!.
    + by rewrite Hcl.
    + intros data ->. split; [done|]. rewrite Hbody.
      by destruct data as [[|k keys]|].
    + intros Hr. destruct r; try done; (split; [done|]; by rewrite Hbody).
  - intros closure Hclosure. unfold loadAgents_resolve.
    destruct r; try done.
    by rewrite (proj2 (String.eqb_neq _ _) Hclosure).
Qed.

Lemma loadAgents_and_agent_type_witness :
  Js.trim (inputMessage (set_inputMessage "hi" initial)) ≠ ""
  ∧ ∃ cl,
      (sendMessage_begin None None "k3x9a2b" "2024-05-01T10:00:00.000Z"
         (loadAgents_resolve "" (Js.Rejected "Failed to fetch") []
            (set_inputMessage "hi" initial)).2).2 = Some cl
      ∧ body cl !! 2%nat = Some ("agent_type", Js.VString "").
Proof.
  assert (Htext : Js.trim (inputMessage (set_inputMessage "hi" initial)) ≠ "")
    by (intros H; vm_compute in H; discriminate).
  split; [exact Htext|].
  destruct (loadAgents_and_agent_type (Js.Rejected "Failed to fetch") []
              "k3x9a2b" "2024-05-01T10:00:00.000Z"
              (set_inputMessage "hi" initial) Htext)
    as ((cl & Hcl & _ & Hfailed) & _).
  exists cl. split; [exact Hcl|]. exact (proj2 (Hfailed eq_refl)).
Defined.

(** The answered part and the listing part of a send together are
    [sendMessage_resolve] followed by the list of conversations. *)
Lemma sendMessage_resolve_answered cl random now json s :
  sendMessage_resolve cl random now (Js.HttpOk json) s
  = set_busy false (isTyping (sendMessage_answered cl random now json s))
      (sendMessage_answered cl random now json s).
Proof. reflexivity. Qed.




(** X25.  The Enter key of the part_002 variant: Enter without Shift
    sends the typed text even while a request is in flight, where the
    send button is disabled; with Shift, or any other key, nothing
    happens.  While a message is being edited, Enter does not save the
    edit: it sends the draft of the input instead, and does nothing when
    that draft is blank. *)
Theorem enter_key_sends (key : string) (shiftKey : bool)
    (random now : string) (s : State) :
  ((key ≠ "Enter" ∨ shiftKey = true) →
   handleKeyDown key shiftKey random now s = (s, None))
  ∧ (Js.trim (inputMessage s) ≠ "" →
     ∃ s1 cl,
       handleKeyDown "Enter" false random now s = (s1, Some cl)
       ∧ messages s1
         = (messages s
            ++ [mkMessage (uid "tmp-" random) "user"
                  (Js.trim (inputMessage s)) now (Some true) 0 0 None])%list
       ∧ editingId s1 = editingId s ∧ editingText s1 = editingText s
       ∧ (isLoading s = true → click_send random now s = (s, None)))
  ∧ (Text.blank (inputMessage s) →
     handleKeyDown "Enter" false random now s = (s, None)).
Proof.
  unfold handleKeyDown. split_and!.
  - intros [Hkey| ->].
    + by rewrite (proj2 (String.eqb_neq _ _) Hkey).
    + by rewrite andb_false_r.
  - intros Htext. cbn [String.eqb negb andb].
    replace (String.eqb "Enter" "Enter") with true by done. cbn [andb].
    destruct (sendMessage_begin_sent' None random now s (or_introl Htext))
      as (cl & Hcl & _).
    eexists _, cl. split; [exact Hcl|]. split_and!; try done.
    intros Hloading. unfold click_send, send_disabled. by rewrite Hloading.
  - intros Hblank. apply trim_empty_iff in Hblank.
    replace (String.eqb "Enter" "Enter") with true by done. cbn [negb andb].
    unfold sendMessage_begin. cbn [Js.truthy]. by rewrite Hblank.
Qed.

Lemma enter_key_sends_witness :
  Js.trim (inputMessage (set_busy true true Sample.composing')) ≠ ""
  ∧ isLoading (set_busy true true Sample.composing') = true
  ∧ is_Some (handleKeyDown "Enter" false "k3x9a2b"
               "2024-05-01T10:04:00.000Z"
               (set_busy true true Sample.composing')).2
  ∧ click_send "k3x9a2b" "2024-05-01T10:04:00.000Z"
      (set_busy true true Sample.composing')
    = (set_busy true true Sample.composing', None).
Proof.
  assert (Htext :
    Js.trim (inputMessage (set_busy true true Sample.composing')) ≠ "")
    by (intros H; vm_compute in H; discriminate).
  destruct (enter_key_sends "Enter" false "k3x9a2b"
              "2024-05-01T10:04:00.000Z"
              (set_busy true true Sample.composing')) as (_ & Hsend & _).
  destruct (Hsend Htext) as (s1 & cl & Hkey & _ & _ & _ & Hclick).
  split_and!; [exact Htext|reflexivity| |exact (Hclick eq_refl)].
  rewrite Hkey. by eexists.
Defined.

End api_conversations_more.
